(** * Campus data-ingestion jobs: a shallow embedding and its properties

    The repository holds five scheduled jobs (calendar events, organization
    events, live campus busyness, live parking, weather).  Each one fetches a
    JSON payload, normalizes it and writes the result to a document store.
    The parking, weather and event jobs are embedded whole; of the busyness
    job, the status function.

    The embedding follows the Python sources function by function:
    - JSON-decoded values are the inductive type [json];
    - a Python exception is the [Raise] case of [result];
    - the document store is explicit state, threaded by the [io] monad;
    - Python builtins and third-party libraries whose code is not in the
      repository ([float] and [int] on strings, [str], BeautifulSoup,
      [datetime]) are fields of the class [PyRuntime];
    - Python floats are their exact rational values (type [Q]); NaN and the
      infinities are outside the model;
    - strings are byte strings; case conversion and white space follow
      Python on the ASCII range;
    - logging has no effect on control flow or on the store and is left out,
      except for the one [len] call inside a log line that can raise. *)

From Stdlib Require Import ZArith QArith Qround String Ascii List Lia Lqa DecimalString.
From stdpp Require Import base option list strings gmap fin_maps.

Set Warnings "-register-all".

Local Open Scope string_scope.
Local Open Scope Z_scope.

(** ** Python values and exceptions *)

(** The exceptions the jobs can meet; all of them derive from [Exception].
    [RequestException] stands for a failed HTTP call or an undecodable
    body. *)
Inductive exn :=
| IndexError
| KeyError
| AttributeError
| TypeError
| ValueError
| RequestException.

Inductive result (A : Type) :=
| Ok (a : A)
| Raise (e : exn).
Arguments Ok {A} a.
Arguments Raise {A} e.

#[global] Instance result_ret : MRet result := λ A a, Ok a.
#[global] Instance result_bind : MBind result := λ A B f m,
  match m with
  | Ok a => f a
  | Raise e => Raise e
  end.
#[global] Instance result_fmap : FMap result := λ A B f m,
  match m with
  | Ok a => Ok (f a)
  | Raise e => Raise e
  end.

(** [try: body except (caught): handler] on a pure computation. *)
Definition try_except {A} (body : result A) (handler : exn → result A) : result A :=
  match body with
  | Ok a => Ok a
  | Raise e => handler e
  end.

(** A value decoded from JSON.  An object keeps its members in insertion
    order, one entry per key, as a Python dict does. *)
Inductive json :=
| JNull
| JBool (b : bool)
| JInt (n : Z)
| JFloat (q : Q)
| JStr (s : string)
| JArr (items : list json)
| JObj (fields : list (string * json)).

(** Python truthiness: [bool(v)]. *)
Definition truthy (v : json) : bool :=
  match v with
  | JNull => false
  | JBool b => b
  | JInt n => negb (n =? 0)
  | JFloat q => negb (Qeq_bool q 0)
  | JStr s => negb (String.eqb s "")
  | JArr items => match items with [] => false | _ => true end
  | JObj fields => match fields with [] => false | _ => true end
  end.

(** [x or y] *)
Definition py_or (x y : json) : json := if truthy x then x else y.

Fixpoint assoc {A} (k : string) (kvs : list (string * A)) : option A :=
  match kvs with
  | [] => None
  | (k', v) :: rest => if String.eqb k k' then Some v else assoc k rest
  end.

(** [d.get(k, dflt)]: only dicts have the method. *)
Definition dict_get (d : json) (k : string) (dflt : json) : result json :=
  match d with
  | JObj fields => Ok (default dflt (assoc k fields))
  | _ => Raise AttributeError
  end.

(** [d[k]] with a string key. *)
Definition getitem (d : json) (k : string) : result json :=
  match d with
  | JObj fields =>
      match assoc k fields with
      | Some v => Ok v
      | None => Raise KeyError
      end
  | _ => Raise TypeError
  end.

(** [k in d] with a string key, on a dict. *)
Definition dict_has (fields : list (string * json)) (k : string) : bool :=
  match assoc k fields with Some _ => true | None => false end.

Definition chars (s : string) : list json :=
  map (λ c, JStr (String c "")) (list_ascii_of_string s).

(** [for x in v]: the items a [for] loop or a comprehension visits. *)
Definition py_iter (v : json) : result (list json) :=
  match v with
  | JArr items => Ok items
  | JStr s => Ok (chars s)
  | JObj fields => Ok (map (λ kv, JStr kv.1) fields)
  | _ => Raise TypeError
  end.

(** [v[0]] *)
Definition index0 (v : json) : result json :=
  match v with
  | JArr items =>
      match items with
      | x :: _ => Ok x
      | [] => Raise IndexError
      end
  | JStr s =>
      match s with
      | String c _ => Ok (JStr (String c ""))
      | EmptyString => Raise IndexError
      end
  | JObj _ => Raise KeyError
  | _ => Raise TypeError
  end.

(** [len(v)] *)
Definition py_len (v : json) : result nat :=
  match v with
  | JArr items => Ok (length items)
  | JStr s => Ok (String.length s)
  | JObj fields => Ok (length fields)
  | _ => Raise TypeError
  end.

(** Number of a numeric value ([bool] is a subclass of [int]). *)
Definition as_number (v : json) : option Q :=
  match v with
  | JBool b => Some (if b then 1%Q else 0%Q)
  | JInt n => Some (inject_Z n)
  | JFloat q => Some q
  | _ => None
  end.

(** Python [==] on decoded JSON: numbers compare by value, dicts
    irrespective of order. *)
Fixpoint py_eq (a b : json) {struct a} : bool :=
  match a, b with
  | JNull, JNull => true
  | JStr s, JStr t => String.eqb s t
  | JArr xs, JArr ys =>
      (fix go (xs ys : list json) : bool :=
         match xs, ys with
         | [], [] => true
         | x :: xs', y :: ys' => py_eq x y && go xs' ys'
         | _, _ => false
         end) xs ys
  | JObj fs, JObj gs =>
      Nat.eqb (length fs) (length gs) &&
      (fix go (fs : list (string * json)) : bool :=
         match fs with
         | [] => true
         | (k, v) :: fs' =>
             match assoc k gs with
             | Some w => py_eq v w
             | None => false
             end && go fs'
         end) fs
  | JBool _, _ | JInt _, _ | JFloat _, _ =>
      match as_number a, as_number b with
      | Some p, Some q => Qeq_bool p q
      | _, _ => false
      end
  | _, _ => false
  end.

(** [x in xs] for a list [xs]. *)
Definition py_in (x : json) (xs : list json) : bool :=
  existsb (λ y, py_eq y x) xs.

(** Values that can be a dict key or a set member. *)
Definition hashable (v : json) : bool :=
  match v with
  | JArr _ | JObj _ => false
  | _ => true
  end.

(** A dict whose keys are arbitrary hashable values, in insertion order.
    Keys are compared with [==], as Python does after hashing. *)
Definition pydict := list (json * json).

Fixpoint pd_get (d : pydict) (k : json) : option json :=
  match d with
  | [] => None
  | (k', v) :: rest => if py_eq k' k then Some v else pd_get rest k
  end.

(** [d[k] = v]: an existing key keeps its place and takes the new value. *)
Fixpoint pd_set (d : pydict) (k v : json) : pydict :=
  match d with
  | [] => [(k, v)]
  | (k', v') :: rest =>
      if py_eq k' k then (k', v) :: rest else (k', v') :: pd_set rest k v
  end.

Definition Qlt_bool (x y : Q) : bool := negb (Qle_bool y x).

(** [v >= bound] against an integer literal: defined on numbers only. *)
Definition ge_int (v : json) (bound : Z) : result bool :=
  match as_number v with
  | Some q => Ok (Qle_bool (inject_Z bound) q)
  | None => Raise TypeError
  end.

(** [xs[i]] on a list: a negative index counts from the end. *)
Definition list_index {A} (xs : list A) (i : Z) : result A :=
  let n := Z.of_nat (length xs) in
  if (0 <=? i) && (i <? n) then
    match xs !! Z.to_nat i with Some x => Ok x | None => Raise IndexError end
  else if (- n <=? i) && (i <? 0) then
    match xs !! Z.to_nat (n + i) with Some x => Ok x | None => Raise IndexError end
  else Raise IndexError.

Definition as_int (v : json) : option Z :=
  match v with
  | JBool b => Some (if b then 1 else 0)
  | JInt n => Some n
  | _ => None
  end.

(** [a += b] *)
Definition py_iadd (a b : json) : result json :=
  match a with
  | JArr xs => ys ← py_iter b; mret (JArr (xs ++ ys))
  | JStr s =>
      match b with
      | JStr t => Ok (JStr (s +:+ t))
      | _ => Raise TypeError
      end
  | _ =>
      match as_int a, as_int b with
      | Some m, Some n => Ok (JInt (m + n))
      | _, _ =>
          match as_number a, as_number b with
          | Some p, Some q => Ok (JFloat (p + q))
          | _, _ => Raise TypeError
          end
      end
  end.

(** A list comprehension whose body can raise. *)
Fixpoint map_result {A B} (f : A → result B) (xs : list A) : result (list B) :=
  match xs with
  | [] => mret []
  | x :: rest => y ← f x; ys ← map_result f rest; mret (y :: ys)
  end.

(** Python [round] on a float: nearest integer, ties to the even one. *)
Definition py_round (q : Q) : Z :=
  let f := Qfloor q in
  match Qcompare (q - inject_Z f) (1 # 2) with
  | Lt => f
  | Gt => f + 1
  | Eq => if Z.even f then f else f + 1
  end.

(** [int] on a float truncates toward zero. *)
Definition Qtrunc (q : Q) : Z := Z.quot (Qnum q) (Zpos (Qden q)).

(** ** Builtins and libraries outside the repository *)

Class PyRuntime := {
  (** [float(s)] on a string; [None] is [ValueError] *)
  str_to_float : string → option Q;
  (** [int(s)] on a string; [None] is [ValueError] *)
  str_to_int : string → option Z;
  (** [str(v)], as f-string interpolation applies it *)
  py_str : json → string;
  (** [BeautifulSoup(unescape(v), "html.parser").get_text().strip()] *)
  soup_text : json → result string;
  (** [datetime.fromisoformat(s).astimezone(EASTERN).isoformat()];
      [None] is [ValueError] or [TypeError] *)
  iso_to_eastern : string → option string;
}.

Section Conversions.
Context `{PyRuntime}.

(** [float(v)] *)
Definition py_float (v : json) : result Q :=
  match v with
  | JBool b => Ok (if b then 1%Q else 0%Q)
  | JInt n => Ok (inject_Z n)
  | JFloat q => Ok q
  | JStr s =>
      match str_to_float s with
      | Some q => Ok q
      | None => Raise ValueError
      end
  | _ => Raise TypeError
  end.

(** [int(v)] *)
Definition py_int (v : json) : result Z :=
  match v with
  | JBool b => Ok (if b then 1 else 0)
  | JInt n => Ok n
  | JFloat q => Ok (Qtrunc q)
  | JStr s =>
      match str_to_int s with
      | Some n => Ok n
      | None => Raise ValueError
      end
  | _ => Raise TypeError
  end.
End Conversions.

(** ** String methods *)

Definition is_upper (c : ascii) : bool :=
  let n := nat_of_ascii c in (65 <=? n)%nat && (n <=? 90)%nat.
Definition is_lower (c : ascii) : bool :=
  let n := nat_of_ascii c in (97 <=? n)%nat && (n <=? 122)%nat.
Definition to_lower (c : ascii) : ascii :=
  if is_upper c then ascii_of_nat (nat_of_ascii c + 32) else c.
Definition to_upper (c : ascii) : ascii :=
  if is_lower c then ascii_of_nat (nat_of_ascii c - 32) else c.

(** [str.isspace] on one character: TAB, LF, VT, FF, CR, FS, GS, RS, US
    and the space. *)
Definition is_space (c : ascii) : bool :=
  let n := nat_of_ascii c in
  ((9 <=? n)%nat && (n <=? 13)%nat) || ((28 <=? n)%nat && (n <=? 32)%nat).

Fixpoint str_map (f : ascii → ascii) (s : string) : string :=
  match s with
  | EmptyString => EmptyString
  | String c s' => String (f c) (str_map f s')
  end.

(** [s.lower()] *)
Definition lower (s : string) : string := str_map to_lower s.

(** [s.capitalize()]: first character upper-cased, the rest lower-cased. *)
Definition capitalize (s : string) : string :=
  match s with
  | EmptyString => EmptyString
  | String c s' => String (to_upper c) (lower s')
  end.

(** [s.split()]: the maximal runs of characters that are not white space.
    [w] is the word being read. *)
Fixpoint split_go (w s : string) : list string :=
  match s with
  | EmptyString => if String.eqb w "" then [] else [w]
  | String c s' =>
      if is_space c
      then (if String.eqb w "" then split_go "" s' else w :: split_go "" s')
      else split_go (w +:+ String c "") s'
  end.
Definition split (s : string) : list string := split_go "" s.

(** [s.split(sep)] for a one-character separator: empty pieces are kept. *)
Fixpoint split_on_go (sep : ascii) (w s : string) : list string :=
  match s with
  | EmptyString => [w]
  | String c s' =>
      if Ascii.eqb c sep
      then w :: split_on_go sep "" s'
      else split_on_go sep (w +:+ String c "") s'
  end.
Definition split_on (sep : ascii) (s : string) : list string :=
  split_on_go sep "" s.

Definition char_in (c : ascii) (set : string) : bool :=
  existsb (Ascii.eqb c) (list_ascii_of_string set).

Fixpoint lstrip (set : string) (s : string) : string :=
  match s with
  | EmptyString => EmptyString
  | String c s' => if char_in c set then lstrip set s' else s
  end.

Definition str_rev (s : string) : string :=
  string_of_list_ascii (rev (list_ascii_of_string s)).

(** [s.strip(set)] *)
Definition strip (set : string) (s : string) : string :=
  str_rev (lstrip set (str_rev (lstrip set s))).

(** [s.replace(c, by)] for a one-character [c]. *)
Fixpoint replace_char (c : ascii) (by_ : string) (s : string) : string :=
  match s with
  | EmptyString => EmptyString
  | String x s' =>
      if Ascii.eqb x c then by_ +:+ replace_char c by_ s'
      else String x (replace_char c by_ s')
  end.

Fixpoint concat_str (ws : list string) : string :=
  match ws with
  | [] => ""
  | w :: ws' => w +:+ concat_str ws'
  end.

(** ** The store monad

    A job reads and writes the store as it goes; an exception ends it and
    leaves the writes already made in place. *)

Definition io (S A : Type) : Type := S → result A * S.

#[global] Instance io_ret {S} : MRet (io S) := λ A a s, (Ok a, s).
#[global] Instance io_bind {S} : MBind (io S) := λ A B f m s,
  match m s with
  | (Ok a, s') => f a s'
  | (Raise e, s') => (Raise e, s')
  end.

(** A pure step inside a job. *)
Definition lift {S A} (r : result A) : io S A := λ s, (r, s).
Definition io_get {S} : io S S := λ s, (Ok s, s).
Definition io_modify {S} (f : S → S) : io S unit := λ s, (Ok (), f s).

(** The handler every job ends with: [except Exception as e: logging.error]. *)
Definition catch_all {S} (body : io S unit) : io S unit :=
  λ s, match body s with
       | (Ok u, s') => (Ok u, s')
       | (Raise _, s') => (Ok (), s')
       end.

(** ** get-live-parking/main.py *)

Module Parking.

(** A call on the [liveParking] node. *)
Inductive write :=
| Update (key : string) (data : list (string * json))
| Delete (key : string)
| SetLastUpdated (t : string).

(** The [liveParking] node: one record of fields per lot key, and the
    time of the last cycle.  [writes] lists the calls made on the node,
    oldest first; it is bookkeeping of the model, not stored data. *)
Record db := {
  lots : gmap string (gmap string json);
  lastUpdated : option string;
  writes : list write;
}.

(** [update] replaces the fields it is given and keeps the others. *)
Definition merge_lot (key : string) (data : list (string * json))
    (m : gmap string (gmap string json)) : gmap string (gmap string json) :=
  <[key := list_to_map data ∪ default ∅ (m !! key)]> m.

(** [lots_ref.child(key).update(data)] *)
Definition db_update (key : string) (data : list (string * json)) : io db unit :=
  io_modify (λ d, {| lots := merge_lot key data (lots d);
                     lastUpdated := lastUpdated d;
                     writes := writes d ++ [Update key data] |}).

(** [lots_ref.child(key).delete()] *)
Definition db_delete (key : string) : io db unit :=
  io_modify (λ d, {| lots := delete key (lots d);
                     lastUpdated := lastUpdated d;
                     writes := writes d ++ [Delete key] |}).

(** [ref.child("lastUpdated").set(t)] *)
Definition db_set_lastUpdated (t : string) : io db unit :=
  io_modify (λ d, {| lots := lots d;
                     lastUpdated := Some t;
                     writes := writes d ++ [SetLastUpdated t] |}).

Section Job.
Context `{PyRuntime}.

Definition parse_coordinate (geocode_str : json) : result json :=
  try_except
    (match geocode_str with
     | JStr s =>
         match split_on "," (strip "()" s) with
         | [lat_str; lng_str] =>
             lat ← py_float (JStr lat_str);
             lng ← py_float (JStr lng_str);
             mret (JObj [("lat", JFloat lat); ("lng", JFloat lng)])
         | _ => Raise ValueError
         end
     | _ => Raise AttributeError
     end)
    (λ e, match e with
          | ValueError | AttributeError => Ok JNull
          | _ => Raise e
          end).

Definition parse_int (value : json) (dflt : Z) : result Z :=
  try_except (py_int value)
    (λ e, match e with
          | ValueError | TypeError => Ok dflt
          | _ => Raise e
          end).

Definition lot_key_from_name (name : json) : result string :=
  match name with
  | JStr s =>
      match split s with
      | [] => Raise IndexError
      | w :: ws => Ok (lower w +:+ concat_str (map capitalize ws))
      end
  | _ => Raise AttributeError
  end.

Definition build_lot_data (lot : json) (current_data : gmap string json) (key : string)
  : result (list (string * json)) :=
  name ← dict_get lot "location_name" (JStr "");
  address ← dict_get lot "location_address" (JStr "");
  geocode ← dict_get lot "geocode" (JStr "");
  coordinate ← parse_coordinate geocode;
  total ← dict_get lot "total_spaces" JNull;
  totalSpaces ← parse_int total 0;
  free ← dict_get lot "free_spaces" JNull;
  availableSpaces ← parse_int free 0;
  occ ← dict_get lot "occupancy" JNull;
  occupancy ← parse_int occ 0;
  mret [("id", JStr key);
        ("name", name);
        ("location", JObj [("address", py_or address JNull);
                           ("coordinate", coordinate)]);
        ("totalSpaces", JInt totalSpaces);
        ("availableSpaces", JInt availableSpaces);
        ("occupancy", JInt occupancy);
        ("isHidden", default (JBool false) (current_data !! "isHidden"))].

(** The [for lot in parking_lots] loop; the result is [updated_lot_keys]. *)
Fixpoint update_lots (current_lots : gmap string (gmap string json))
    (parking_lots : list json) (updated_lot_keys : gset string)
  : io db (gset string) :=
  match parking_lots with
  | [] => mret updated_lot_keys
  | lot :: rest =>
      name ← lift (dict_get lot "location_name" JNull);
      if negb (truthy name) then update_lots current_lots rest updated_lot_keys
      else
        key ← lift (lot_key_from_name name);
        let current_data := default ∅ (current_lots !! key) in
        lot_data ← lift (build_lot_data lot current_data key);
        db_update key lot_data;;
        update_lots current_lots rest ({[key]} ∪ updated_lot_keys)
  end.

(** The [for key in obsolete_keys] loop. *)
Fixpoint delete_lots (keys : list string) : io db unit :=
  match keys with
  | [] => mret ()
  | key :: rest => db_delete key;; delete_lots rest
  end.

Definition reconcile (parking_lots : list json) (timestamp_str : string) : io db unit :=
  d ← io_get;
  let current_lots := lots d in
  let current_lot_keys := dom current_lots in
  updated_lot_keys ← update_lots current_lots parking_lots ∅;
  let obsolete_keys := current_lot_keys ∖ updated_lot_keys in
  delete_lots (elements obsolete_keys);;
  db_set_lastUpdated timestamp_str.

(** [fetched] is what [fetch_parking_data] returns or raises,
    [timestamp_str] the formatted clock reading. *)
Definition get_live_parking (fetched : result json) (timestamp_str : string) : io db unit :=
  catch_all (
    response ← lift fetched;
    match response with
    | JArr (first :: rest) =>
        let parking_lots :=
          match first with JArr inner => inner | _ => first :: rest end in
        match parking_lots with
        | [] => mret ()
        | _ => reconcile parking_lots timestamp_str
        end
    | _ => mret ()
    end).

End Job.
End Parking.

(** ** get-live-campus-busyness/main.py *)

Module Busyness.

Definition occupancy_status (occupancy : json) : result string :=
  c ← ge_int occupancy 80;
  if c : bool then mret "veryHigh"
  else
    c ← ge_int occupancy 50;
    if c : bool then mret "high"
    else
      c ← ge_int occupancy 25;
      if c : bool then mret "moderate"
      else mret "low".

(** The [liveCampusBusyness] node: the locations keyed by id and the time
    of the last cycle. *)
Record db := {
  locations : gmap string json;
  lastUpdated : option string;
}.

Definition build_sublocation (subloc : json) : result json :=
  occupancy ← dict_get subloc "busyness" (JInt 0);
  id ← dict_get subloc "id" JNull;
  name ← dict_get subloc "name" (JStr "");
  capacity ← dict_get subloc "capacity" (JInt 0);
  is_open ← dict_get subloc "isOpen" (JBool false);
  status ← occupancy_status occupancy;
  mret (JObj [("id", id);
              ("name", name);
              ("occupancy", occupancy);
              ("capacity", capacity);
              ("isOpen", is_open);
              ("status", JStr status)]).

(** The [for s in sublocs] loop of [build_location], up to its [break]. *)
Fixpoint find_best_spot (best_id : json) (sublocs : list json) : result json :=
  match sublocs with
  | [] => mret JNull
  | s :: rest =>
      id ← dict_get s "id" JNull;
      if py_eq id best_id then dict_get s "name" JNull
      else find_best_spot best_id rest
  end.

Definition build_location (location : json) : result json :=
  sublocs ← dict_get location "subLocs" (JArr []);
  occupancy ← dict_get location "busyness" (JInt 0);
  best_locations ← dict_get location "bestLocations" (JArr []);
  best_spot ← (if truthy best_locations && truthy sublocs
               then first ← index0 best_locations;
                    best_id ← dict_get first "id" JNull;
                    items ← py_iter sublocs;
                    find_best_spot best_id items
               else mret JNull);
  id ← dict_get location "id" JNull;
  name ← dict_get location "name" (JStr "");
  capacity ← dict_get location "capacity" (JInt 0);
  is_open ← dict_get location "isOpen" (JBool false);
  status ← occupancy_status occupancy;
  items ← py_iter sublocs;
  sub_locations ← map_result build_sublocation items;
  mret (JObj [("id", id);
              ("name", name);
              ("occupancy", occupancy);
              ("capacity", capacity);
              ("isOpen", is_open);
              ("status", JStr status);
              ("bestSpot", best_spot);
              ("subLocations", JArr sub_locations)]).


(** [ref.child("lastUpdated").set(t)] *)
Definition db_set_lastUpdated (t : string) : io db unit :=
  io_modify (λ d, {| locations := locations d; lastUpdated := Some t |}).

Section Job.
Context `{PyRuntime}.

(** The [for location in locations] loop; the result is
    [location_updates]. *)
Fixpoint collect_locations (locations : list json) (location_updates : gmap string json)
  : result (gmap string json) :=
  match locations with
  | [] => mret location_updates
  | location :: rest =>
      loc_id ← dict_get location "id" JNull;
      if negb (truthy loc_id) then collect_locations rest location_updates
      else
        built ← build_location location;
        collect_locations rest (<[py_str loc_id := built]> location_updates)
  end.


End Job.
End Busyness.

(** ** get-weather/main.py *)

Module Weather.

(** The [weather] node: absent, or the record of the last successful cycle. *)
Definition db := option json.

Section Job.
Context `{PyRuntime}.

(** The dict comprehension of [extract_readings], one reading at a time. *)
Fixpoint collect_readings (readings : list json) (acc : pydict) : result pydict :=
  match readings with
  | [] => mret acc
  | r :: rest =>
      k ← getitem r "sensor_type";
      v ← getitem r "value";
      if hashable k then collect_readings rest (pd_set acc k v)
      else Raise TypeError
  end.

Definition extract_readings (station : json) : result pydict :=
  record ← dict_get station "record" (JObj []);
  readings ← dict_get record "readings" (JArr []);
  items ← py_iter readings;
  collect_readings items [].

Fixpoint find_camera (cameras : list json) : result json :=
  match cameras with
  | [] => mret JNull
  | camera :: rest =>
      name ← dict_get camera "name" JNull;
      if py_eq name (JStr "Cloud Camera") then dict_get camera "image" JNull
      else find_camera rest
  end.

Definition extract_camera_url (station : json) : result json :=
  st ← dict_get station "station" (JObj []);
  cameras ← dict_get st "cameras" (JArr []);
  items ← py_iter cameras;
  find_camera items.

Definition directions : list string :=
  ["N"; "NNE"; "NE"; "ENE"; "E"; "ESE"; "SE"; "SSE";
   "S"; "SSW"; "SW"; "WSW"; "W"; "WNW"; "NW"; "NNW"].

Definition wind_index (d : Q) : Z := py_round (d / (45 # 2)) mod 16.

Definition wind_direction_label (degrees : json) : result string :=
  d ← py_float degrees;
  let index := wind_index d in
  list_index directions index.

Definition determine_feels_like (temperature wind_chill heat_index wind_speed humidity : json)
  : result Z :=
  temp ← py_float temperature;
  cold ← (if Qle_bool temp 50
          then ws ← py_float wind_speed; mret (Qlt_bool 3 ws)
          else mret false);
  if cold : bool then
    wc ← py_float wind_chill; mret (py_round wc)
  else
    hot ← (if Qle_bool 80 temp
           then h ← py_float humidity; mret (Qlt_bool 40 h)
           else mret false);
    if hot : bool then
      hi ← py_float heat_index; mret (py_round hi)
    else mret (py_round temp).

Definition opt_int (n : option Z) : json :=
  match n with Some z => JInt z | None => JNull end.

(** The [try: get_sunrise_sunset() except Exception] block; [sun] is what
    the astronomical library returns or raises. *)
Definition sunrise_sunset (sun : result (Z * Z)) : option Z * option Z :=
  match sun with
  | Ok (sunrise, sunset) => (Some sunrise, Some sunset)
  | Raise _ => (None, None)
  end.

Definition reading (readings : pydict) (sensor : string) (dflt : json) : json :=
  default dflt (pd_get readings (JStr sensor)).

(** Everything from [extract_readings] to the record that is written;
    [None] is the early [return] on a missing temperature. *)
Definition build_weather (station : json) (sun : result (Z * Z)) (timestamp_str : string)
  : result (option json) :=
  readings ← extract_readings station;
  image_url ← extract_camera_url station;
  let temperature := reading readings "Thermometer" JNull in
  if negb (truthy temperature) then mret None
  else
    t ← py_float temperature;
    let rounded_temp := py_round t in
    feels_like ← determine_feels_like temperature
                   (reading readings "Wind Chill" temperature)
                   (reading readings "Heat Index" temperature)
                   (reading readings "Anemometer" (JInt 0))
                   (reading readings "Hygrometer" (JInt 0));
    let '(sunrise, sunset) := sunrise_sunset sun in
    humidity ← py_int (reading readings "Hygrometer" (JInt 0));
    speed ← py_int (reading readings "Anemometer" (JInt 0));
    gust ← py_int (reading readings "10 Minute Wind Gust" (JInt 0));
    direction ← wind_direction_label (reading readings "Wind Vane" (JInt 0));
    vane ← py_float (reading readings "Wind Vane" (JInt 0));
    uv ← py_int (reading readings "UV Radiation Sensor" (JInt 0));
    rate ← py_float (reading readings "Rain Rate" (JStr "0.00"));
    total ← py_float (reading readings "Rain Gauge" (JStr "0.00"));
    solar ← py_int (reading readings "Solar Radiation Sensor" (JInt 0));
    let weather_data :=
      [("temperature", JInt rounded_temp);
       ("feelsLike", JInt feels_like);
       ("humidity", JInt humidity);
       ("wind", JObj [("speed", JInt speed);
                      ("gust", JInt gust);
                      ("direction", JStr direction);
                      ("degrees", JInt (Qtrunc vane))]);
       ("uvIndex", JInt uv);
       ("rain", JObj [("rate", JFloat rate); ("total", JFloat total)]);
       ("solarRadiation", JInt solar);
       ("sunrise", opt_int sunrise);
       ("sunset", opt_int sunset);
       ("lastUpdated", JStr timestamp_str)] in
    mret (Some (JObj (if truthy image_url
                      then weather_data ++ [("imageUrl", image_url)]
                      else weather_data))).

(** The station object of a payload: the first element of a list, or a
    dict with a [record]; [None] is the early [return] on any other shape. *)
Definition select_station (data : json) : option json :=
  match data with
  | JArr (first :: _) => Some first
  | JObj fields => if dict_has fields "record" then Some data else None
  | _ => None
  end.

(** [fetched] is what [fetch_weatherstem_data] returns or raises. *)
Definition get_weather (fetched : result json) (sun : result (Z * Z))
    (timestamp_str : string) : io db unit :=
  catch_all (
    data ← lift fetched;
    match select_station data with
    | None => mret ()
    | Some station =>
        w ← lift (build_weather station sun timestamp_str);
        match w with
        | None => mret ()
        | Some weather_data => io_modify (λ _, Some weather_data)
        end
    end).

End Job.
End Weather.

(** ** The event documents

    Both event jobs overwrite one document of the [events] collection:
    the events keyed by id, the number of events starting today and the
    time of the write. *)

Record event_doc := {
  items : gmap string json;
  todayCount : nat;
  lastUpdated : string;
}.

(** [{e["id"]: e for e in events}]: a later event replaces an earlier one
    with the same id.  The id of a formatted event is a string; the store
    accepts no other key in a map, so any other id fails the write. *)
Fixpoint events_by_id (events : list json) (acc : gmap string json)
  : result (gmap string json) :=
  match events with
  | [] => mret acc
  | e :: rest =>
      id ← getitem e "id";
      match id with
      | JStr k => events_by_id rest (<[k := e]> acc)
      | _ => Raise TypeError
      end
  end.

(** [e.get("start") and e["start"].startswith(today_str)] *)
Definition starts_today (today_str : string) (e : json) : result bool :=
  start ← dict_get e "start" JNull;
  if truthy start then
    start ← getitem e "start";
    match start with
    | JStr s => Ok (String.prefix today_str s)
    | _ => Raise AttributeError
    end
  else mret false.

Fixpoint count_today (today_str : string) (events : list json) : result nat :=
  match events with
  | [] => mret 0%nat
  | e :: rest =>
      b ← starts_today today_str e;
      n ← count_today today_str rest;
      mret (if b : bool then S n else n)
  end.

Definition opt_float (x : option Q) : json :=
  match x with Some q => JFloat q | None => JNull end.

(** Truthiness of a value that is [None] or a float. *)
Definition opt_truthy (x : option Q) : bool := truthy (opt_float x).

(** [{"lat": lat, "lng": lng} if lat and lng else None] *)
Definition coordinate_of (lat lng : option Q) : json :=
  if opt_truthy lat && opt_truthy lng
  then JObj [("lat", opt_float lat); ("lng", opt_float lng)]
  else JNull.

(** [float(d[k]) if d.get(k) else None], the expression both event jobs
    use for the latitude and the longitude. *)
Definition float_if_present `{PyRuntime} (d : json) (k : string)
  : result (option Q) :=
  raw ← dict_get d k JNull;
  if truthy raw
  then v ← getitem d k; q ← py_float v; mret (Some q)
  else mret None.

(** ** get-calendar-events/main.py *)

Module CalendarEvents.
Section Job.
Context `{PyRuntime}.

(** [page1] and [page2] are what the two requests return or raise. *)
Definition fetch_localist_events (page1 page2 : result json) : result json :=
  data ← page1;
  match data with
  | JObj _ =>
      events ← dict_get data "events" (JArr []);
      page ← dict_get data "page" (JObj []);
      total_pages ← dict_get page "total" (JInt 1);
      more ← ge_int total_pages 2;
      if more : bool then
        data2 ← page2;
        events2 ← dict_get data2 "events" (JArr []);
        py_iadd events events2
      else mret events
  | _ => mret (JArr [])
  end.

Definition clean_html (html_str : json) : result json :=
  if negb (truthy html_str) then mret (JStr "")
  else JStr <$> soup_text html_str.

Definition to_eastern (time_str : json) : result json :=
  if negb (truthy time_str) then mret JNull
  else
    match time_str with
    | JStr s =>
        match iso_to_eastern (replace_char "Z" "+00:00" s) with
        | Some t => Ok (JStr t)
        | None => Ok time_str
        end
    | _ => Raise AttributeError
    end.

Definition format_event (item : json) : result json :=
  e ← dict_get item "event" (JObj []);
  geo ← dict_get e "geo" (JObj []);
  instances ← dict_get e "event_instances" (JArr []);
  instance ← (if truthy instances
              then first ← index0 instances;
                   dict_get first "event_instance" (JObj [])
              else mret (JObj []));
  filters ← dict_get e "filters" (JObj []);
  event_types ← dict_get filters "event_types" (JArr []);
  types ← py_iter event_types;
  categories ← map_result (λ event_type, dict_get event_type "name" (JStr "")) types;
  departments ← dict_get e "departments" (JArr []);
  department ← (if truthy departments
                then first ← index0 departments; dict_get first "name" JNull
                else mret JNull);
  lat ← float_if_present geo "latitude";
  lng ← float_if_present geo "longitude";
  let coordinate := coordinate_of lat lng in
  id ← dict_get e "id" (JStr "");
  title ← dict_get e "title" (JStr "");
  description_html ← dict_get e "description" (JStr "");
  cleaned ← clean_html description_html;
  description_text ← dict_get e "description_text" (JStr "");
  start_raw ← dict_get instance "start" JNull;
  start ← to_eastern start_raw;
  end_raw ← dict_get instance "end" JNull;
  end_ ← to_eastern end_raw;
  all_day ← dict_get instance "all_day" (JBool false);
  location_name ← dict_get e "location_name" JNull;
  address ← dict_get e "address" JNull;
  localist_url ← dict_get e "localist_url" JNull;
  url ← dict_get e "url" JNull;
  photo_url ← dict_get e "photo_url" JNull;
  mret (JObj
    [("id", JStr ("localist_" +:+ py_str id));
     ("title", title);
     ("description", py_or cleaned description_text);
     ("start", start);
     ("end", end_);
     ("allDay", all_day);
     ("location", JObj [("name", py_or location_name JNull);
                        ("address", py_or address JNull);
                        ("coordinate", coordinate)]);
     ("url", py_or (py_or localist_url url) JNull);
     ("imageUrl", py_or photo_url JNull);
     ("source", JStr "localist");
     ("categories", py_or (JArr categories) JNull);
     ("department", department)]).

(** [page1] and [page2] are what the upstream answers, [today_str] and
    [timestamp] the two clock readings. *)
Definition get_calendar_events (page1 page2 : result json)
    (today_str timestamp : string) : io (option event_doc) unit :=
  catch_all (
    raw_events ← lift (fetch_localist_events page1 page2);
    raw_items ← lift (py_iter raw_events);
    events ← lift (map_result format_event raw_items);
    match events with
    | [] => mret ()
    | _ =>
        today_count ← lift (count_today today_str events);
        events_dict ← lift (events_by_id events ∅);
        io_modify (λ _, Some {| items := events_dict;
                               todayCount := today_count;
                               lastUpdated := timestamp |})
    end).

End Job.
End CalendarEvents.

(** ** get-organization-events/main.py *)

Module OrganizationEvents.
Section Job.
Context `{PyRuntime}.

(** [response] is what the events request returns or raises. *)
Definition fetch_engage_events (response : result json) : result json :=
  data ← response;
  match data with
  | JObj fields =>
      if dict_has fields "error" then mret (JArr [])
      else dict_get data "items" (JArr [])
  | _ => dict_get data "items" (JArr [])
  end.

(** The dict comprehension of [fetch_organization_names]. *)
Fixpoint collect_names (orgs : list json) (acc : pydict) : result pydict :=
  match orgs with
  | [] => mret acc
  | item :: rest =>
      id ← getitem item "id";
      name ← dict_get item "name" (JStr "");
      if hashable id then collect_names rest (pd_set acc id name)
      else Raise TypeError
  end.

(** [org_ids] is the set of ids, [response] what the request returns or
    raises. *)
Definition fetch_organization_names (org_ids : list json) (response : result json)
  : pydict :=
  match org_ids with
  | [] => []
  | _ =>
      let body :=
        data ← response;
        let is_error :=
          match data with
          | JObj fields => dict_has fields "error"
          | _ => false
          end in
        if is_error then mret []
        else
          orgs ← dict_get data "items" (JArr []);
          orgs ← py_iter orgs;
          collect_names orgs [] in
      match body with
      | Ok org_map => org_map
      | Raise _ => []
      end
  end.

Definition clean_html (html_str : json) : result json :=
  if negb (truthy html_str) then mret (JStr "")
  else JStr <$> soup_text html_str.

Definition to_eastern (time_str : json) : result json :=
  if negb (truthy time_str) then mret JNull
  else
    match time_str with
    | JStr s =>
        match iso_to_eastern (replace_char "Z" "+00:00" s) with
        | Some t => Ok (JStr t)
        | None => Ok time_str
        end
    | _ => Raise AttributeError
    end.

(** The [for cat in item.get("categories", [])] loop. *)
Fixpoint merge_categories (cats : list json) (categories : list json)
  : result (list json) :=
  match cats with
  | [] => mret categories
  | cat :: rest =>
      name ← dict_get cat "name" (JStr "");
      if truthy name && negb (py_in name categories)
      then merge_categories rest (categories ++ [name])
      else merge_categories rest categories
  end.

Definition format_event (item : json) (org_map : pydict) : result json :=
  address_raw ← dict_get item "address" (JObj []);
  let address := py_or address_raw (JObj []) in
  org_id ← dict_get item "submittedByOrganizationId" JNull;
  organization ← (if truthy org_id
                  then if hashable org_id
                       then mret (default JNull (pd_get org_map org_id))
                       else Raise TypeError
                  else mret JNull);
  theme ← dict_get item "theme" JNull;
  categories ← (if truthy theme
                then t ← getitem item "theme"; mret [t]
                else mret []);
  cats ← dict_get item "categories" (JArr []);
  cats ← py_iter cats;
  categories ← merge_categories cats categories;
  lat ← float_if_present address "latitude";
  lng ← float_if_present address "longitude";
  let coordinate := coordinate_of lat lng in
  id ← dict_get item "id" (JStr "");
  title ← dict_get item "name" (JStr "");
  description_html ← dict_get item "description" (JStr "");
  description ← clean_html description_html;
  start_raw ← dict_get item "startsOn" JNull;
  start ← to_eastern start_raw;
  end_raw ← dict_get item "endsOn" JNull;
  end_ ← to_eastern end_raw;
  location_name ← dict_get address "name" JNull;
  address_line ← dict_get address "address" JNull;
  line1 ← dict_get address "line1" JNull;
  image_url ← dict_get item "imageUrl" JNull;
  benefits ← dict_get item "benefits" JNull;
  mret (JObj
    [("id", JStr ("engage_" +:+ py_str id));
     ("title", title);
     ("description", description);
     ("start", start);
     ("end", end_);
     ("allDay", JBool false);
     ("location", JObj [("name", py_or location_name JNull);
                        ("address", py_or (py_or address_line line1) JNull);
                        ("coordinate", coordinate)]);
     ("url", JNull);
     ("imageUrl", py_or image_url JNull);
     ("source", JStr "engage");
     ("categories", py_or (JArr categories) JNull);
     ("benefits", py_or benefits JNull);
     ("organization", organization)]).

(** The loop that fills the set [org_ids]. *)
Fixpoint collect_org_ids (raw_events : list json) (org_ids : list json)
  : result (list json) :=
  match raw_events with
  | [] => mret org_ids
  | item :: rest =>
      org_id ← dict_get item "submittedByOrganizationId" JNull;
      if truthy org_id then
        if hashable org_id
        then collect_org_ids rest (if py_in org_id org_ids then org_ids
                                   else org_ids ++ [org_id])
        else Raise TypeError
      else collect_org_ids rest org_ids
  end.

(** [events_response] and [orgs_response] are what the upstream answers,
    [today_str] and [timestamp] the two clock readings. *)
Definition get_organization_events (events_response orgs_response : result json)
    (today_str timestamp : string) : io (option event_doc) unit :=
  catch_all (
    raw_events ← lift (fetch_engage_events events_response);
    lift (py_len raw_events);;
    if negb (truthy raw_events) then mret ()
    else
      raw_items ← lift (py_iter raw_events);
      org_ids ← lift (collect_org_ids raw_items []);
      let org_map := fetch_organization_names org_ids orgs_response in
      events ← lift (map_result (λ item, format_event item org_map) raw_items);
      today_count ← lift (count_today today_str events);
      events_dict ← lift (events_by_id events ∅);
      io_modify (λ _, Some {| items := events_dict;
                             todayCount := today_count;
                             lastUpdated := timestamp |})).

End Job.
End OrganizationEvents.

(** ** A runtime to evaluate the jobs on examples

    Numbers are read in plain decimal notation (an optional sign, digits,
    an optional fraction) with surrounding blanks ignored, as [int] and
    [float] do; [str] covers strings, integers, [None] and booleans; text
    is taken to hold no markup and timestamps to be in Eastern time. *)

Module TestRuntime.

Fixpoint digits_go (acc : Z) (s : string) : option Z :=
  match s with
  | EmptyString => Some acc
  | String c s' =>
      let n := nat_of_ascii c in
      if (48 <=? n)%nat && (n <=? 57)%nat
      then digits_go (10 * acc + Z.of_nat (n - 48)) s'
      else None
  end.

Definition digits (s : string) : option Z :=
  match s with
  | EmptyString => None
  | _ => digits_go 0 s
  end.

Definition signed (s : string) : Z * string :=
  match s with
  | String "-" rest => (-1, rest)
  | _ => (1, s)
  end.

Definition read_int (s : string) : option Z :=
  let '(sign, body) := signed (strip " " s) in
  n ← digits body; Some (sign * n).

Definition read_float (s : string) : option Q :=
  let '(sign, body) := signed (strip " " s) in
  match split_on "." body with
  | [i] => n ← digits i; Some (inject_Z (sign * n))
  | [i; f] =>
      n ← digits i;
      m ← digits f;
      let scale := 10 ^ Z.of_nat (String.length f) in
      Some (Qmake (sign * (n * scale + m)) (Z.to_pos scale))
  | _ => None
  end.

Definition show (v : json) : string :=
  match v with
  | JStr s => s
  | JInt n => NilZero.string_of_int (Z.to_int n)
  | JNull => "None"
  | JBool true => "True"
  | JBool false => "False"
  | _ => ""
  end.

Definition text (v : json) : result string :=
  match v with
  | JStr s => Ok s
  | _ => Raise TypeError
  end.

#[export] Instance runtime : PyRuntime := {|
  str_to_float := read_float;
  str_to_int := read_int;
  py_str := show;
  soup_text := text;
  iso_to_eastern := λ s, Some s;
|}.

End TestRuntime.

(** ** Sample data *)

Module Samples.

(** Two stored lots: one hidden and annotated, one the feed no longer
    reports. *)
Definition stored_lots : gmap string (gmap string json) :=
  {[ "deckA" := {[ "isHidden" := JBool true; "note" := JStr "staff" ]};
     "deckB" := {[ "isHidden" := JBool false ]} ]}.

(** A fetch with the stored lot "Deck A", a lot without a name and a new
    lot. *)
Definition fetched_lots : list json :=
  [JObj [("location_name", JStr "Deck A");
         ("location_address", JStr "1 Main St");
         ("geocode", JStr "(35.5, -78.25)");
         ("total_spaces", JStr "100");
         ("free_spaces", JInt 40);
         ("occupancy", JStr "60")];
   JObj [("location_name", JStr "")];
   JObj [("location_name", JStr "Deck C")]].

(** A fetch whose second lot has a blank name. *)
Definition blank_name_lots : list json :=
  [JObj [("location_name", JStr "Deck C")];
   JObj [("location_name", JStr " ")];
   JObj [("location_name", JStr "Deck A")]].

Definition parking_db (stored : gmap string (gmap string json)) : Parking.db :=
  {| Parking.lots := stored; Parking.lastUpdated := None; Parking.writes := [] |}.

Definition sensor (sensor_type value : string) : json :=
  JObj [("sensor_type", JStr sensor_type); ("value", JStr value)].

(** A station payload with a temperature. *)
Definition station : json :=
  JObj [("record",
         JObj [("readings",
                JArr [sensor "Thermometer" "45.2";
                      sensor "Wind Chill" "39.6";
                      sensor "Anemometer" "5";
                      sensor "Hygrometer" "30";
                      sensor "Wind Vane" "202.5"])]);
        ("station",
         JObj [("cameras",
                JArr [JObj [("name", JStr "Cloud Camera");
                            ("image", JStr "https://example.org/sky.jpg")]])])].

(** A station payload without one. *)
Definition station_without_thermometer : json :=
  JObj [("record",
         JObj [("readings",
                JArr [sensor "Anemometer" "5"; sensor "Hygrometer" "30"])])].

(** The record of an earlier cycle. *)
Definition old_weather : json := JObj [("temperature", JInt 70)].

(** A calendar item with a full coordinate and two event types. *)
Definition calendar_item : json :=
  JObj [("event",
         JObj [("id", JInt 4711);
               ("title", JStr "Spring Concert");
               ("geo", JObj [("latitude", JStr "35.78");
                             ("longitude", JStr "-78.67")]);
               ("event_instances",
                JArr [JObj [("event_instance",
                             JObj [("start", JStr "2024-05-01T19:00:00-04:00")])]]);
               ("filters",
                JObj [("event_types",
                       JArr [JObj [("name", JStr "Music")];
                             JObj [("name", JStr "Arts")]])])])].

(** A calendar item whose two event types bear the same name. *)
Definition calendar_item_repeated_type : json :=
  JObj [("event",
         JObj [("id", JInt 4712);
               ("filters",
                JObj [("event_types",
                       JArr [JObj [("name", JStr "Music")];
                             JObj [("name", JStr "Music")]])])])].

(** An organization item with a latitude and no longitude, and a theme
    that is also one of its categories. *)
Definition engage_item : json :=
  JObj [("id", JInt 99);
        ("name", JStr "Chess Night");
        ("startsOn", JStr "2024-05-02T18:00:00-04:00");
        ("address", JObj [("name", JStr "Student Union");
                          ("latitude", JStr "35.78")]);
        ("theme", JStr "Social");
        ("categories", JArr [JObj [("name", JStr "Games")];
                             JObj [("name", JStr "Social")];
                             JObj [("name", JStr "")];
                             JObj [("name", JStr "Games")]])].

Definition ok_or_null (r : result json) : json :=
  match r with
  | Ok v => v
  | Raise _ => JNull
  end.

End Samples.

(** ** Vocabulary of the statements *)


(** Every character of [s] is white space. *)
Fixpoint all_space (s : string) : bool :=
  match s with
  | EmptyString => true
  | String c s' => is_space c && all_space s'
  end.




Section ParkingVocabulary.
Context `{PyRuntime}.



(** The fields [build_lot_data] supplies. *)
Definition normalized_fields : list string :=
  ["id"; "name"; "location"; "totalSpaces"; "availableSpaces"; "occupancy";
   "isHidden"].

(** The stored [isHidden] flag of a key, [False] without a stored record. *)
Definition stored_hidden (stored : gmap string (gmap string json)) (key : string)
  : json :=
  default (JBool false) (stored !! key ≫= λ record, record !! "isHidden").






End ParkingVocabulary.

(** The readings of a station payload. *)
Definition station_readings (station : json) : list json :=
  match station with
  | JObj fields =>
      match assoc "record" fields with
      | Some (JObj record) =>
          match assoc "readings" record with
          | Some (JArr readings) => readings
          | _ => []
          end
      | _ => []
      end
  | _ => []
  end.

(** A reading of the sensor [sensor]. *)
Definition is_reading_of (sensor : string) (r : json) : bool :=
  match r with
  | JObj fields =>
      match assoc "sensor_type" fields with
      | Some (JStr s) => String.eqb s sensor
      | _ => false
      end
  | _ => false
  end.

(** The station payload holds a Thermometer reading. *)
Definition has_thermometer (station : json) : bool :=
  existsb (is_reading_of "Thermometer") (station_readings station).

(** [build_weather] ends without a record to write. *)
Definition build_weather_quits (r : result (option json)) : Prop :=
  match r with
  | Ok None => True
  | Ok (Some _) => False
  | Raise _ => True
  end.

Section EventVocabulary.
Context `{PyRuntime}.

(** An upstream coordinate component that is present and not zero: [q] is
    its value. *)
Definition present_nonzero (raw : json) (q : Q) : Prop :=
  truthy raw = true ∧ py_float raw = Ok q ∧ ¬ (q == 0)%Q.

(** The coordinate [c] of an event, against the upstream latitude [la] and
    longitude [lo]: the full pair when both are present and not zero, null
    in every other case. *)
Definition coordinate_composed (la lo c : json) : Prop :=
  (∃ a b, present_nonzero la a ∧ present_nonzero lo b ∧
          c = JObj [("lat", JFloat a); ("lng", JFloat b)]) ∨
  ((¬ ∃ a b, present_nonzero la a ∧ present_nonzero lo b) ∧ c = JNull).

(** [item["event"]["geo"][k]] of a calendar item, null when missing. *)
Definition calendar_geo (item : json) (k : string) : result json :=
  e ← dict_get item "event" (JObj []);
  geo ← dict_get e "geo" (JObj []);
  dict_get geo k JNull.

(** [item["address"][k]] of an organization item, null when missing. *)
Definition engage_address (item : json) (k : string) : result json :=
  address ← dict_get item "address" (JObj []);
  dict_get (py_or address (JObj [])) k JNull.

(** [ev["location"]["coordinate"]] *)
Definition event_coordinate (ev : json) : result json :=
  location ← getitem ev "location";
  getitem location "coordinate".

End EventVocabulary.

Section CategoryVocabulary.
Context `{PyRuntime}.







End CategoryVocabulary.

Section ParkingInvariantVocabulary.
Context `{PyRuntime}.

(** The record of a key is the stored record with some of the normalized
    fields replaced, [isHidden] by the stored flag only. *)
Definition record_kept (stored : gmap string (gmap string json))
    (lots : gmap string (gmap string json)) : Prop :=
  ∀ k r,
    lots !! k = Some r →
    ∃ upd : gmap string json,
      r = upd ∪ default ∅ (stored !! k) ∧
      (∀ f, f ∉ normalized_fields → upd !! f = None) ∧
      (upd !! "isHidden" = None ∨
       upd !! "isHidden" = Some (stored_hidden stored k)).

End ParkingInvariantVocabulary.

(** A piece of a geocode: no parenthesis and no comma in it. *)
Definition plain (s : string) : bool :=
  forallb (λ c, negb (char_in c "(),")) (list_ascii_of_string s).

(** ** Vocabulary of the further statements *)

(** A written busyness record: its occupancy is a number and its status is
    the bucket of that number. *)
Definition status_consistent (record : json) : Prop :=
  ∃ occupancy q status,
    getitem record "occupancy" = Ok occupancy ∧
    as_number occupancy = Some q ∧
    Busyness.occupancy_status occupancy = Ok status ∧
    getitem record "status" = Ok (JStr status).

Module MoreSamples.

(** A location with two sub-locations, the second one the best spot. *)
Definition location : json :=
  JObj [("id", JInt 7);
        ("name", JStr "Library");
        ("busyness", JInt 62);
        ("capacity", JInt 400);
        ("isOpen", JBool true);
        ("bestLocations", JArr [JObj [("id", JInt 72)]]);
        ("subLocs",
         JArr [JObj [("id", JInt 71); ("name", JStr "First Floor");
                     ("busyness", JInt 85)];
               JObj [("id", JInt 72); ("name", JStr "Second Floor");
                     ("busyness", JFloat (245 # 10))]])].

(** A location without an id. *)
Definition location_without_id : json :=
  JObj [("name", JStr "Annex"); ("busyness", JInt 10)].

(** Readings whose last Thermometer value is the number zero. *)
Definition zero_readings : list json :=
  [Samples.sensor "Thermometer" "45.2";
   JObj [("sensor_type", JStr "Thermometer"); ("value", JInt 0)]].
Definition zero_record : list (string * json) :=
  [("readings", JArr zero_readings)].
Definition zero_fields : list (string * json) :=
  [("record", JObj zero_record)].

(** A station with a temperature and a wind speed only. *)
Definition station_plain : json :=
  JObj [("record",
         JObj [("readings",
                JArr [Samples.sensor "Thermometer" "45.2";
                      Samples.sensor "Anemometer" "12"])])].

(** Readings with two Thermometer values. *)
Definition twice_readings : list json :=
  [Samples.sensor "Thermometer" "45.2";
   Samples.sensor "Hygrometer" "30";
   Samples.sensor "Thermometer" "46.0"].
Definition twice_record : list (string * json) :=
  [("readings", JArr twice_readings)].
Definition twice_fields : list (string * json) :=
  [("record", JObj twice_record)].

End MoreSamples.

(** A reading with a sensor type that is a string, and a value. *)
Definition reading_ok (r : json) : bool :=
  match r with
  | JObj fields =>
      match assoc "sensor_type" fields, assoc "value" fields with
      | Some (JStr _), Some _ => true
      | _, _ => false
      end
  | _ => false
  end.

(** The value of the last reading of [sensor] in a list of readings. *)
Definition last_reading (sensor : string) (readings : list json) : option json :=
  foldl (λ found r,
           if is_reading_of sensor r
           then match r with
                | JObj fields => assoc "value" fields
                | _ => found
                end
           else found)
        None readings.




(** The event starts on the day [today_str]. *)
Definition started (today_str : string) (ev : json) : bool :=
  match starts_today today_str ev with
  | Ok b => b
  | Raise _ => false
  end.

(** The events of the list, and the stored events, that start on the day
    [today_str]. *)
Definition starting_today (today_str : string) (events : list json) : list json :=
  filter (λ ev, started today_str ev = true) events.
Definition stored_today (today_str : string) (m : gmap string json) : nat :=
  size (filter (λ kv : string * json, started today_str kv.2 = true) m).


(** Two organization events that differ in the organization name at
    most. *)
Definition same_but_organization (e1 e2 : json) : Prop :=
  ∃ (fields : list (string * json)) (o1 o2 : json),
    e1 = JObj (fields ++ [("organization", o1)]) ∧
    e2 = JObj (fields ++ [("organization", o2)]).

(** The organization of a stored event is null. *)
Definition without_organization (ev : json) : Prop :=
  getitem ev "organization" = Ok JNull.

Module EventSamples.

(** A first page that is the only one, and one that announces a second. *)
Definition only_page : list (string * json) :=
  [("events", JArr [Samples.calendar_item]);
   ("page", JObj [("current", JInt 1); ("total", JInt 1)])].
Definition first_page : list (string * json) :=
  [("events", JArr [Samples.calendar_item]);
   ("page", JObj [("current", JInt 1); ("total", JInt 2)])].
Definition second_page : list (string * json) :=
  [("events", JArr [Samples.calendar_item_repeated_type]);
   ("page", JObj [("current", JInt 2); ("total", JInt 2)])].

(** A page that holds the same event twice. *)
Definition repeated_page : list (string * json) :=
  [("events", JArr [Samples.calendar_item; Samples.calendar_item])].



(** A calendar item with a plain description only. *)
Definition plain_description_item : json :=
  JObj [("event", JObj [("id", JInt 4713);
                        ("description_text", JStr "Bring a chair.")])].

Definition engage_event : json :=
  Samples.ok_or_null
    (OrganizationEvents.format_event (H := TestRuntime.runtime)
       Samples.engage_item []).
Definition plain_description_event : json :=
  Samples.ok_or_null
    (CalendarEvents.format_event (H := TestRuntime.runtime) plain_description_item).

End EventSamples.

(** A camera that is not the Cloud Camera. *)
Definition other_camera (camera : json) : Prop :=
  ∃ name, dict_get camera "name" JNull = Ok name ∧
          py_eq name (JStr "Cloud Camera") = false.

Module CameraSamples.

(** A station whose first Cloud Camera has no image and whose second one
    has. *)
Definition sky : json :=
  JObj [("name", JStr "Sky Camera"); ("image", JStr "https://example.org/sky.jpg")].
Definition cloud_fields : list (string * json) := [("name", JStr "Cloud Camera")].
Definition cloud_with_image : json :=
  JObj [("name", JStr "Cloud Camera");
        ("image", JStr "https://example.org/cloud.jpg")].

End CameraSamples.

(** * Properties *)

(** ** The exception monad *)

Lemma bind_Ok {A B} (m : result A) (f : A → result B) (b : B) :
  m ≫= f = Ok b ↔ ∃ a, m = Ok a ∧ f a = Ok b.
Proof.
  destruct m as [a|e]; simpl.
  - split; [eauto | by intros (? & [= <-] & ?)].
  - split; [done | by intros (? & ? & ?)].
Qed.

(** Splits a successful chain of binds into its steps. *)
Ltac inv_bind H :=
  repeat match type of H with
         | _ ≫= _ = Ok _ =>
             let a := fresh "a" in
             let Ha := fresh "Ha" in
             apply bind_Ok in H as (a & Ha & H)
         | mret _ = Ok _ => injection H as H
         | Ok _ = Ok _ => injection H as H
         end.

(** ** Strings *)

Lemma append_cons (c : ascii) (s t : string) :
  String c s +:+ t = String c (s +:+ t).
Proof. reflexivity. Qed.

Lemma append_nil_l (s : string) : "" +:+ s = s.
Proof. reflexivity. Qed.

Lemma append_nil_r (s : string) : s +:+ "" = s.
Proof.
  induction s as [|c s IH]; [done |]. by rewrite append_cons, IH.
Qed.

Lemma append_assoc (s t u : string) : (s +:+ t) +:+ u = s +:+ t +:+ u.
Proof.
  induction s as [|c s IH]; [done |]. by rewrite !append_cons, IH.
Qed.

Lemma eqb_empty (w : string) : String.eqb w "" = true ↔ w = "".
Proof. apply String.eqb_eq. Qed.


Lemma split_go_nonempty_acc (acc s : string) :
  acc ≠ "" → split_go acc s ≠ [].
Proof.
  revert acc. induction s as [|c s IH]; intros acc Hacc; simpl.
  - destruct (String.eqb acc "") eqn:E; [by apply eqb_empty in E | done].
  - destruct (is_space c).
    + destruct (String.eqb acc "") eqn:E; [by apply eqb_empty in E | done].
    + apply IH. by destruct acc.
Qed.

(** [s.split()] is empty exactly when [s] is blank. *)
Lemma split_nil_iff (s : string) : split s = [] ↔ all_space s = true.
Proof.
  unfold split. induction s as [|c s IH]; simpl; [done |].
  destruct (is_space c); simpl; [done |].
  split; [| done]. intros Hnil. by apply split_go_nonempty_acc in Hnil.
Qed.



(** ** Parking: the lot key *)



Lemma lot_key_from_name_blank (name : string) :
  all_space name = true → Parking.lot_key_from_name (JStr name) = Raise IndexError.
Proof.
  intros Hname. unfold Parking.lot_key_from_name.
  apply split_nil_iff in Hname. by rewrite Hname.
Qed.



(** ** Busyness: the status buckets *)

Lemma Qle_bool_false (x y : Q) : Qle_bool x y = false ↔ (y < x)%Q.
Proof.
  split.
  - intros Hb. apply Qnot_le_lt. intros Hle.
    apply Qle_bool_iff in Hle. congruence.
  - intros Hlt. destruct (Qle_bool x y) eqn:E; [| done].
    apply Qle_bool_iff in E. by apply Qlt_not_le in Hlt.
Qed.


Lemma Qlt_bool_false (x y : Q) : Qlt_bool x y = false ↔ (y <= x)%Q.
Proof. unfold Qlt_bool. rewrite negb_false_iff. apply Qle_bool_iff. Qed.

(** C2: for a numeric occupancy [v], [occupancy_status] answers "veryHigh"
    exactly when [v >= 80], "high" exactly when [50 <= v < 80], "moderate"
    exactly when [25 <= v < 50] and "low" exactly when [v < 25]. *)
Theorem occupancy_status_buckets (v : json) (q : Q) :
  as_number v = Some q →
  (Busyness.occupancy_status v = Ok "veryHigh" ↔ (80 <= q)%Q) ∧
  (Busyness.occupancy_status v = Ok "high" ↔ (50 <= q)%Q ∧ (q < 80)%Q) ∧
  (Busyness.occupancy_status v = Ok "moderate" ↔ (25 <= q)%Q ∧ (q < 50)%Q) ∧
  (Busyness.occupancy_status v = Ok "low" ↔ (q < 25)%Q).
Proof.
  intros Hv. unfold Busyness.occupancy_status, ge_int. rewrite Hv. simpl.
  change (inject_Z 80) with 80%Q. change (inject_Z 50) with 50%Q.
  change (inject_Z 25) with 25%Q.
  destruct (Qle_bool 80 q) eqn:E80; simpl;
    [apply Qle_bool_iff in E80 | apply Qle_bool_false in E80].
  { split_and!; (split; [try done | intros; try done; exfalso; lra]). }
  destruct (Qle_bool 50 q) eqn:E50; simpl;
    [apply Qle_bool_iff in E50 | apply Qle_bool_false in E50].
  { split_and!; (split; [try done | intros; try done; exfalso; lra]). }
  destruct (Qle_bool 25 q) eqn:E25; simpl;
    [apply Qle_bool_iff in E25 | apply Qle_bool_false in E25].
  { split_and!; (split; [try done | intros; try done; exfalso; lra]). }
  split_and!; (split; [try done | intros; try done; exfalso; lra]).
Qed.

Lemma occupancy_status_buckets_witness :
  as_number (JInt 80) = Some 80%Q ∧
  (Busyness.occupancy_status (JInt 80) = Ok "veryHigh" ↔ (80 <= 80)%Q).
Proof.
  split; [reflexivity |].
  exact (proj1 (occupancy_status_buckets (JInt 80) 80%Q eq_refl)).
Defined.

(** ** Weather: the feels-like rule *)

Section FeelsLike.
Context `{PyRuntime}.






End FeelsLike.


(** ** Weather: the wind direction *)










Section WindDirection.
Context `{PyRuntime}.



End WindDirection.


(** ** Parking: the reconciliation *)

Section Reconciliation.
Context {rt : PyRuntime}.




Lemma build_lot_data_fields (lot : json) (current_data : gmap string json)
    (key : string) (data : list (string * json)) :
  Parking.build_lot_data lot current_data key = Ok data →
  data.*1 = normalized_fields ∧
  assoc "isHidden" data
  = Some (default (JBool false) (current_data !! "isHidden")).
Proof.
  intros Hb. unfold Parking.build_lot_data in Hb. inv_bind Hb.
  subst data. done.
Qed.


(** One turn of the loop over the fetched lots. *)
Lemma update_lots_cons (current_lots : gmap string (gmap string json))
    (lot : json) (rest : list json) (updated : gset string) (d : Parking.db) :
  Parking.update_lots current_lots (lot :: rest) updated d
  = match dict_get lot "location_name" JNull with
    | Raise e => (Raise e, d)
    | Ok name =>
        if negb (truthy name)
        then Parking.update_lots current_lots rest updated d
        else
          match Parking.lot_key_from_name name with
          | Raise e => (Raise e, d)
          | Ok key =>
              match Parking.build_lot_data lot
                      (default ∅ (current_lots !! key)) key with
              | Raise e => (Raise e, d)
              | Ok data =>
                  Parking.update_lots current_lots rest ({[key]} ∪ updated)
                    {| Parking.lots := Parking.merge_lot key data (Parking.lots d);
                       Parking.lastUpdated := Parking.lastUpdated d;
                       Parking.writes := Parking.writes d ++ [Parking.Update key data] |}
              end
          end
    end.
Proof.
  simpl. unfold mbind, io_bind, lift.
  destruct (dict_get lot "location_name" JNull) as [name|e]; [| done].
  destruct (negb (truthy name)); [done |].
  destruct (Parking.lot_key_from_name name) as [key|e]; [| done].
  destruct (Parking.build_lot_data lot (default ∅ (current_lots !! key)) key);
    done.
Qed.

Lemma assoc_elem_of {A} (k : string) (l : list (string * A)) (v : A) :
  assoc k l = Some v → (k, v) ∈ l.
Proof.
  induction l as [|[k' v'] l IH]; simpl; [done |].
  destruct (String.eqb k k') eqn:E.
  - apply String.eqb_eq in E as ->. intros [= ->]. left.
  - intros Hl. right. by apply IH.
Qed.


Lemma list_to_map_assoc {A} (k : string) (l : list (string * A)) :
  (list_to_map l : gmap string A) !! k = assoc k l.
Proof.
  induction l as [|[k' v'] l IH]; simpl; [done |].
  destruct (String.eqb k k') eqn:E.
  - apply String.eqb_eq in E as ->. apply lookup_insert_eq.
  - apply String.eqb_neq in E. by rewrite lookup_insert_ne.
Qed.







Lemma foldl_delete_lookup {A} (m : gmap string A) (ks : list string) (k : string) :
  foldl (λ m k, delete k m) m ks !! k
  = if decide (k ∈ ks) then None else m !! k.
Proof.
  revert m. induction ks as [|k' ks IH]; intros m.
  - rewrite decide_False; [done | apply not_elem_of_nil].
  - cbn [foldl]. rewrite IH. destruct (decide (k ∈ ks)) as [Hin|Hin].
    + rewrite decide_True; [done | by right].
    + destruct (decide (k = k')) as [->|Hne].
      * rewrite decide_True by left. apply lookup_delete_eq.
      * rewrite decide_False; [by apply lookup_delete_ne |].
        by intros [?|?]%elem_of_cons.
Qed.





Lemma delete_lots_run (keys : list string) (d : Parking.db) :
  Parking.delete_lots keys d
  = (Ok (),
     {| Parking.lots := foldl (λ m k, delete k m) (Parking.lots d) keys;
        Parking.lastUpdated := Parking.lastUpdated d;
        Parking.writes := Parking.writes d ++ (Parking.Delete <$> keys) |}).
Proof.
  revert d. induction keys as [|key keys IH]; intros d.
  - simpl. unfold mret, io_ret. destruct d. simpl. by rewrite app_nil_r.
  - simpl. unfold mbind, io_bind, Parking.db_delete, io_modify.
    rewrite IH. simpl. by rewrite <- app_assoc.
Qed.



Lemma stored_hidden_default (stored : gmap string (gmap string json)) (key : string) :
  default (JBool false) (default ∅ (stored !! key) !! "isHidden")
  = stored_hidden stored key.
Proof. unfold stored_hidden. by destruct (stored !! key). Qed.



End Reconciliation.


(** A failed fetch leaves the store as it is. *)
Example get_live_parking_fetch_failure (d : Parking.db) :
  Parking.get_live_parking (H := TestRuntime.runtime)
    (Raise RequestException) "2024-05-01 09:00:00 AM" d
  = (Ok (), d).
Proof. reflexivity. Qed.

(** The example of the specification, evaluated: the hidden lot keeps its
    flag and its other stored field, the lot that is no longer reported is
    gone, the new lot is there and not hidden. *)
Example get_live_parking_sample :
  let final :=
    (Parking.get_live_parking (H := TestRuntime.runtime)
       (Ok (JArr [JArr Samples.fetched_lots])) "2024-05-01 09:00:00 AM"
       (Samples.parking_db Samples.stored_lots)).2 in
  (Parking.lots final !! "deckA" ≫= λ r, r !! "isHidden") = Some (JBool true) ∧
  (Parking.lots final !! "deckA" ≫= λ r, r !! "note") = Some (JStr "staff") ∧
  (Parking.lots final !! "deckA" ≫= λ r, r !! "totalSpaces") = Some (JInt 100) ∧
  Parking.lots final !! "deckB" = None ∧
  (Parking.lots final !! "deckC" ≫= λ r, r !! "isHidden") = Some (JBool false) ∧
  dom (Parking.lots final) = {[ "deckA"; "deckC" ]} ∧
  length (Parking.writes final) = 4%nat.
Proof. vm_compute. split_and!; reflexivity. Qed.


(** C10: a blank name passes the guard [if not name] and then
    [lot_key_from_name] raises [IndexError]; the handler of the job ends
    the cycle there: the lots fetched before it are written, the ones after
    it are not, nothing is pruned and the time stamp is not set. *)
Theorem lot_key_from_name_blank_raises :
  truthy (JStr " ") = true ∧
  Parking.lot_key_from_name (JStr " ") = Raise IndexError ∧
  (∀ s : string,
     truthy (JStr s) = true → all_space s = true →
     Parking.lot_key_from_name (JStr s) = Raise IndexError) ∧
  let final :=
    (Parking.get_live_parking (H := TestRuntime.runtime)
       (Ok (JArr [JArr Samples.blank_name_lots])) "2024-05-01 09:00:00 AM"
       (Samples.parking_db Samples.stored_lots)).2 in
  dom (Parking.lots final) = {[ "deckA"; "deckB"; "deckC" ]} ∧
  (Parking.lots final !! "deckA" ≫= λ r, r !! "name") = None ∧
  Parking.lastUpdated final = None ∧
  length (Parking.writes final) = 1%nat.
Proof.
  split_and!; [done | done | |].
  - intros s _ Hs. by apply lot_key_from_name_blank.
  - vm_compute. split_and!; reflexivity.
Qed.

Lemma lot_key_from_name_blank_raises_witness :
  truthy (JStr "  ") = true ∧ all_space "  " = true ∧
  Parking.lot_key_from_name (JStr "  ") = Raise IndexError.
Proof.
  split; [reflexivity |]. split; [reflexivity |].
  exact (proj1 (proj2 (proj2 lot_key_from_name_blank_raises))
           "  " eq_refl eq_refl).
Defined.

(** ** Weather: a payload without a temperature *)

Lemma py_eq_str (k : json) (t : string) : py_eq k (JStr t) = true → k = JStr t.
Proof.
  destruct k as [| [] | | | s | |]; simpl; try done.
  by intros ->%String.eqb_eq.
Qed.

Lemma pd_get_None (d : pydict) (k : json) :
  Forall (λ kv, py_eq kv.1 k = false) d → pd_get d k = None.
Proof.
  induction 1 as [|[k' v'] d Hk Hd IH]; simpl; [done |].
  simpl in Hk. by rewrite Hk.
Qed.

Lemma pd_set_keys (d : pydict) (k v t : json) :
  py_eq k t = false →
  Forall (λ kv, py_eq kv.1 t = false) d →
  Forall (λ kv, py_eq kv.1 t = false) (pd_set d k v).
Proof.
  intros Hk. induction 1 as [|[k' v'] d Hk' Hd IH]; simpl.
  - by repeat constructor.
  - destruct (py_eq k' k); by constructor.
Qed.

Section NoTemperature.
Context {rt : PyRuntime}.

Lemma collect_readings_without (sensor : string) (readings : list json)
    (acc d : pydict) :
  Forall (λ r, is_reading_of sensor r = false) readings →
  Forall (λ kv, py_eq kv.1 (JStr sensor) = false) acc →
  Weather.collect_readings readings acc = Ok d →
  Forall (λ kv, py_eq kv.1 (JStr sensor) = false) d.
Proof.
  intros Hrs. revert acc.
  induction Hrs as [|r rest Hr Hrest IH]; intros acc Hacc Hc; simpl in Hc.
  - by injection Hc as <-.
  - apply bind_Ok in Hc as (k & Hk & Hc).
    apply bind_Ok in Hc as (v & Hv & Hc).
    destruct (hashable k); [| done].
    assert (Hne : py_eq k (JStr sensor) = false).
    { destruct (py_eq k (JStr sensor)) eqn:E; [| done].
      apply py_eq_str in E as ->.
      destruct r; try done. simpl in Hk, Hr.
      destruct (assoc "sensor_type" fields) as [x|]; [| done].
      injection Hk as ->. by rewrite String.eqb_refl in Hr. }
    exact (IH _ (pd_set_keys acc k v (JStr sensor) Hne Hacc) Hc).
Qed.

(** What [py_iter] visits in the readings is the list of readings, or
    strings, which are no readings. *)
Lemma iter_readings_without (sensor : string) (station record readings : json)
    (items : list json) :
  existsb (is_reading_of sensor) (station_readings station) = false →
  dict_get station "record" (JObj []) = Ok record →
  dict_get record "readings" (JArr []) = Ok readings →
  py_iter readings = Ok items →
  Forall (λ r, is_reading_of sensor r = false) items.
Proof.
  intros Hno Hrec Hrd Hit.
  destruct station as [| | | | | |fields]; try done.
  destruct record as [| | | | | |rfields]; try done.
  simpl in Hrec, Hrd, Hno. injection Hrec as Hrec. injection Hrd as Hrd.
  destruct readings as [| | | |s|l|kvs]; try done; simpl in Hit;
    injection Hit as <-.
  - unfold chars. apply Forall_forall. intros x Hx.
    apply list_elem_of_In, in_map_iff in Hx as (c & <- & _). done.
  - destruct (assoc "record" fields) as [rv|] eqn:Er; simpl in Hrec.
    + subst rv. destruct (assoc "readings" rfields) as [lv|] eqn:El;
        simpl in Hrd.
      * subst lv. apply Forall_forall. intros x Hx.
        apply not_true_iff_false. intros Hx'.
        assert (existsb (is_reading_of sensor) l = true); [| congruence].
        apply existsb_exists. exists x. by rewrite <- list_elem_of_In.
      * injection Hrd as <-. constructor.
    + injection Hrec as <-. simpl in Hrd. injection Hrd as <-. constructor.
  - apply Forall_forall. intros x Hx.
    apply list_elem_of_In, in_map_iff in Hx as (c & <- & _). done.
Qed.

Lemma extract_readings_without (sensor : string) (station : json) (d : pydict) :
  existsb (is_reading_of sensor) (station_readings station) = false →
  Weather.extract_readings station = Ok d →
  pd_get d (JStr sensor) = None.
Proof.
  intros Hno He. unfold Weather.extract_readings in He.
  apply bind_Ok in He as (record & Hrec & He).
  apply bind_Ok in He as (readings & Hrd & He).
  apply bind_Ok in He as (items & Hit & He).
  apply pd_get_None.
  eapply (collect_readings_without sensor); [| constructor | exact He].
  by eapply iter_readings_without.
Qed.

(** Without a Thermometer reading [build_weather] returns before it builds
    a record, or raises. *)
Lemma build_weather_without_temperature (station : json) (sun : result (Z * Z))
    (timestamp_str : string) :
  has_thermometer station = false →
  build_weather_quits (Weather.build_weather station sun timestamp_str).
Proof.
  intros Hno. unfold Weather.build_weather.
  destruct (Weather.extract_readings station) as [readings|e] eqn:Er; [| done].
  cbn [mbind result_bind].
  destruct (Weather.extract_camera_url station) as [image_url|e]; [| done].
  cbn [mbind result_bind]. unfold Weather.reading at 1.
  by rewrite (extract_readings_without "Thermometer" station readings Hno Er).
Qed.

End NoTemperature.

(** C6: when the fetched station payload holds no Thermometer reading (or
    the fetch itself fails), the weather cycle writes nothing: the stored
    record is what it was, and the handler of the job lets no exception
    out. *)
Theorem get_weather_without_temperature {rt : PyRuntime} (fetched : result json)
    (sun : result (Z * Z)) (timestamp_str : string) (d : Weather.db) :
  (∀ data station,
     fetched = Ok data → Weather.select_station data = Some station →
     has_thermometer station = false) →
  Weather.get_weather fetched sun timestamp_str d = (Ok (), d).
Proof.
  intros Hno. unfold Weather.get_weather, catch_all.
  unfold mbind at 1. unfold io_bind at 1. unfold lift at 1.
  destruct fetched as [data|e]; [| done].
  destruct (Weather.select_station data) as [station|] eqn:Es; [| done].
  pose proof (build_weather_without_temperature station sun timestamp_str
                (Hno data station eq_refl Es)) as Hq.
  unfold mbind, io_bind, lift.
  by destruct (Weather.build_weather station sun timestamp_str) as [[w|]|e].
Qed.

Lemma get_weather_without_temperature_witness :
  (∀ data station,
     Ok (JArr [Samples.station_without_thermometer]) = Ok data →
     Weather.select_station data = Some station →
     has_thermometer station = false) ∧
  Weather.get_weather (H := TestRuntime.runtime)
    (Ok (JArr [Samples.station_without_thermometer])) (Ok (1714557600, 1714606800))
    "2024-05-01 09:00:00 AM" (Some Samples.old_weather)
  = (Ok (), Some Samples.old_weather).
Proof.
  assert (Hno : ∀ data station,
            Ok (JArr [Samples.station_without_thermometer]) = Ok data →
            Weather.select_station data = Some station →
            has_thermometer station = false).
  { intros data station [= <-] [= <-]. reflexivity. }
  split; [exact Hno |].
  exact (get_weather_without_temperature (rt := TestRuntime.runtime)
           (Ok (JArr [Samples.station_without_thermometer]))
           (Ok (1714557600, 1714606800)) "2024-05-01 09:00:00 AM"
           (Some Samples.old_weather) Hno).
Defined.

(** With a temperature the record is replaced. *)
Example get_weather_sample :
  ∃ record,
    Weather.get_weather (H := TestRuntime.runtime)
      (Ok (JArr [Samples.station])) (Raise ValueError)
      "2024-05-01 09:00:00 AM" (Some Samples.old_weather)
    = (Ok (), Some record) ∧
    getitem record "temperature" = Ok (JInt 45) ∧
    getitem record "feelsLike" = Ok (JInt 40) ∧
    getitem record "sunrise" = Ok JNull ∧
    (w ← getitem record "wind"; getitem w "direction") = Ok (JStr "SSW") ∧
    getitem record "imageUrl" = Ok (JStr "https://example.org/sky.jpg").
Proof. eexists. split; [vm_compute; reflexivity |]. split_and!; reflexivity. Qed.

(** ** Events: the coordinate *)

Section Coordinate.
Context {rt : PyRuntime}.

Lemma float_if_present_cases (d : json) (k : string) (lat : option Q) :
  float_if_present d k = Ok lat →
  ∃ raw, dict_get d k JNull = Ok raw ∧
         ((lat = None ∧ truthy raw = false) ∨
          (∃ q, lat = Some q ∧ truthy raw = true ∧ py_float raw = Ok q)).
Proof.
  unfold float_if_present. intros Hf.
  apply bind_Ok in Hf as (raw & Hraw & Hf). exists raw. split; [done |].
  destruct (truthy raw) eqn:Ht.
  - right. apply bind_Ok in Hf as (v & Hv & Hf).
    apply bind_Ok in Hf as (q & Hq & Hf). injection Hf as <-.
    exists q. split_and!; [done | done |].
    destruct d as [| | | | | |fields]; try done. simpl in Hraw, Hv.
    destruct (assoc k fields) as [x|]; [| done].
    injection Hv as ->. by injection Hraw as ->.
  - left. by injection Hf as <-.
Qed.

Lemma present_nonzero_value (raw : json) (q q' : Q) :
  py_float raw = Ok q → present_nonzero raw q' → q' = q.
Proof. intros Hq (_ & Hq' & _). congruence. Qed.

(** The pair is built exactly when both components are present and not
    zero, and then both of its fields are numbers. *)
Lemma coordinate_of_composed (d : json) (lat lng : option Q) :
  float_if_present d "latitude" = Ok lat →
  float_if_present d "longitude" = Ok lng →
  ∃ la lo,
    dict_get d "latitude" JNull = Ok la ∧
    dict_get d "longitude" JNull = Ok lo ∧
    coordinate_composed la lo (coordinate_of lat lng).
Proof.
  intros (la & Hla & Hlat)%float_if_present_cases
         (lo & Hlo & Hlng)%float_if_present_cases.
  exists la, lo. split_and!; [done | done |].
  unfold coordinate_composed, coordinate_of, opt_truthy.
  destruct Hlat as [[-> Hta] | (a & -> & Hta & Ha)].
  { right. split; [| done]. intros (a & b & (Ht & _) & _). congruence. }
  destruct Hlng as [[-> Htb] | (b & -> & Htb & Hb)].
  { right. split; [| by rewrite andb_false_r].
    intros (a' & b' & _ & (Ht & _)). congruence. }
  simpl. destruct (Qeq_bool a 0) eqn:Ea; simpl.
  { right. split; [| done]. intros (a' & b' & Hpa & _).
    rewrite (present_nonzero_value _ _ _ Ha Hpa) in Hpa.
    destruct Hpa as (_ & _ & Hnz). by apply Qeq_bool_iff in Ea. }
  destruct (Qeq_bool b 0) eqn:Eb; simpl.
  { right. split; [| done]. intros (a' & b' & _ & Hpb).
    rewrite (present_nonzero_value _ _ _ Hb Hpb) in Hpb.
    destruct Hpb as (_ & _ & Hnz). by apply Qeq_bool_iff in Eb. }
  left. exists a, b. split_and!; [| | done].
  - split_and!; [done | done |]. intros Hz%Qeq_bool_iff. congruence.
  - split_and!; [done | done |]. intros Hz%Qeq_bool_iff. congruence.
Qed.

(** C4: in an event normalized by either job the coordinate is the pair of
    both numbers exactly when the upstream latitude and longitude are both
    present and not zero; in every other case it is null.  A pair with one
    component missing does not occur. *)
Theorem format_event_coordinate :
  (∀ item ev,
     CalendarEvents.format_event item = Ok ev →
     ∃ la lo c,
       calendar_geo item "latitude" = Ok la ∧
       calendar_geo item "longitude" = Ok lo ∧
       event_coordinate ev = Ok c ∧
       coordinate_composed la lo c) ∧
  (∀ item org_map ev,
     OrganizationEvents.format_event item org_map = Ok ev →
     ∃ la lo c,
       engage_address item "latitude" = Ok la ∧
       engage_address item "longitude" = Ok lo ∧
       event_coordinate ev = Ok c ∧
       coordinate_composed la lo c).
Proof.
  split.
  - intros item ev Hf. unfold CalendarEvents.format_event in Hf.
    cbv zeta in Hf. inv_bind Hf. subst ev.
    match goal with
    | Hlat : float_if_present ?geo "latitude" = Ok ?lat,
      Hlng : float_if_present ?geo "longitude" = Ok ?lng |- _ =>
        destruct (coordinate_of_composed geo lat lng Hlat Hlng)
          as (la & lo & Hla & Hlo & Hc);
        exists la, lo, (coordinate_of lat lng)
    end.
    unfold calendar_geo.
    match goal with
    | He : dict_get item "event" _ = Ok ?e,
      Hg : dict_get ?e "geo" _ = Ok ?geo |- _ => rewrite He; simpl; rewrite Hg
    end.
    done.
  - intros item org_map ev Hf. unfold OrganizationEvents.format_event in Hf.
    cbv zeta in Hf. inv_bind Hf. subst ev.
    match goal with
    | Hlat : float_if_present ?address "latitude" = Ok ?lat,
      Hlng : float_if_present ?address "longitude" = Ok ?lng |- _ =>
        destruct (coordinate_of_composed address lat lng Hlat Hlng)
          as (la & lo & Hla & Hlo & Hc);
        exists la, lo, (coordinate_of lat lng)
    end.
    unfold engage_address.
    match goal with
    | Ha : dict_get item "address" _ = Ok _ |- _ => rewrite Ha
    end.
    done.
Qed.

End Coordinate.

Lemma format_event_coordinate_witness :
  CalendarEvents.format_event (H := TestRuntime.runtime) Samples.calendar_item
  = Ok (Samples.ok_or_null
          (CalendarEvents.format_event (H := TestRuntime.runtime)
             Samples.calendar_item)) ∧
  ∃ la lo c,
    calendar_geo Samples.calendar_item "latitude" = Ok la ∧
    calendar_geo Samples.calendar_item "longitude" = Ok lo ∧
    event_coordinate
      (Samples.ok_or_null
         (CalendarEvents.format_event (H := TestRuntime.runtime)
            Samples.calendar_item)) = Ok c ∧
    coordinate_composed (H := TestRuntime.runtime) la lo c.
Proof.
  assert (Hf : CalendarEvents.format_event (H := TestRuntime.runtime)
                 Samples.calendar_item
               = Ok (Samples.ok_or_null
                       (CalendarEvents.format_event (H := TestRuntime.runtime)
                          Samples.calendar_item))) by reflexivity.
  split; [exact Hf |].
  exact (proj1 (format_event_coordinate (rt := TestRuntime.runtime))
           Samples.calendar_item _ Hf).
Defined.

(** The two samples, evaluated: a full pair, and null for a latitude
    without a longitude. *)
Example format_event_coordinate_samples :
  (ev ← CalendarEvents.format_event (H := TestRuntime.runtime)
          Samples.calendar_item;
   event_coordinate ev)
  = Ok (JObj [("lat", JFloat (3578 # 100)); ("lng", JFloat (-7867 # 100))]) ∧
  (ev ← OrganizationEvents.format_event (H := TestRuntime.runtime)
          Samples.engage_item [];
   event_coordinate ev)
  = Ok JNull.
Proof. split; reflexivity. Qed.

(** ** Events: the categories *)





Section Categories.
Context {rt : PyRuntime}.





End Categories.


(** The organization sample, evaluated: the theme first, each name once,
    the empty name left out. *)
Example format_event_categories_sample :
  (ev ← OrganizationEvents.format_event (H := TestRuntime.runtime)
          Samples.engage_item [];
   getitem ev "categories")
  = Ok (JArr [JStr "Social"; JStr "Games"]).
Proof. reflexivity. Qed.


(** ** Events: the stored items *)

Lemma catch_all_lift_bind {S A} (r : result A) (k : A → io S unit) (s : S) :
  catch_all (lift r ≫= k) s
  = match r with
    | Ok a => catch_all (k a) s
    | Raise _ => (Ok (), s)
    end.
Proof. unfold catch_all, mbind, io_bind, lift. by destruct r. Qed.

(** Whether the count of today's events raises does not depend on the
    day. *)
Lemma starts_today_indep (t1 t2 : string) (e : json) :
  match starts_today t1 e with
  | Ok _ => ∃ b, starts_today t2 e = Ok b
  | Raise x => starts_today t2 e = Raise x
  end.
Proof.
  unfold starts_today.
  destruct (dict_get e "start" JNull) as [start|x]; simpl; [| done].
  destruct (truthy start); [| cbv [mret result_ret]; eauto].
  destruct (getitem e "start") as [[]|x]; simpl; eauto.
Qed.

Lemma count_today_indep (t1 t2 : string) (events : list json) :
  match count_today t1 events with
  | Ok _ => ∃ n, count_today t2 events = Ok n
  | Raise _ => ∃ x, count_today t2 events = Raise x
  end.
Proof.
  induction events as [|e rest IH]; simpl; [eauto |].
  pose proof (starts_today_indep t1 t2 e) as He.
  destruct (starts_today t1 e) as [b1|x]; simpl.
  - destruct He as [b2 ->]. simpl.
    destruct (count_today t1 rest) as [n1|x]; simpl.
    + destruct IH as [n2 ->]. simpl. eauto.
    + destruct IH as [x' ->]. simpl. eauto.
  - rewrite He. simpl. eauto.
Qed.

(** Every event of the map sits under its own id. *)
Lemma events_by_id_keys (events : list json) (acc m : gmap string json) :
  events_by_id events acc = Ok m →
  (∀ k ev, acc !! k = Some ev → getitem ev "id" = Ok (JStr k)) →
  ∀ k ev, m !! k = Some ev → getitem ev "id" = Ok (JStr k).
Proof.
  revert acc. induction events as [|e rest IH]; intros acc Hm Hacc; simpl in Hm.
  - by injection Hm as <-.
  - apply bind_Ok in Hm as (id & Hid & Hm).
    destruct id as [| | | |key| |]; try done.
    apply (IH _ Hm). intros k ev.
    destruct (decide (key = k)) as [->|Hne].
    + rewrite lookup_insert_eq. by intros [= <-].
    + rewrite lookup_insert_ne by done. apply Hacc.
Qed.

(** One pure step of a job whose outcome is known. *)
Ltac job_step H := rewrite catch_all_lift_bind, H; cbv beta iota.

(** What the last steps of both jobs leave in the store: the items of the
    formatted events, whatever the clock says, or the old document when
    one of the steps raises. *)
Lemma write_events_run (events : list json) :
  ∃ r : option (gmap string json),
    (∀ m, r = Some m → ∀ k ev, m !! k = Some ev → getitem ev "id" = Ok (JStr k)) ∧
    ∀ (today_str timestamp : string) (d : option event_doc),
    ∃ n,
      catch_all
        (today_count ← lift (count_today today_str events);
         events_dict ← lift (events_by_id events ∅);
         io_modify (λ _, Some {| items := events_dict;
                                todayCount := today_count;
                                lastUpdated := timestamp |})) d
      = (Ok (),
         match r with
         | Some m => Some {| items := m; todayCount := n;
                             lastUpdated := timestamp |}
         | None => d
         end).
Proof.
  destruct (count_today "" events) as [n0|x0] eqn:E0.
  - destruct (events_by_id events ∅) as [m|x] eqn:Em.
    + exists (Some m). split.
      * intros m' [= <-]. by apply (events_by_id_keys events ∅ m Em).
      * intros today_str timestamp d.
        pose proof (count_today_indep "" today_str events) as Hc.
        rewrite E0 in Hc. destruct Hc as [n Hn]. exists n.
        job_step Hn. by rewrite catch_all_lift_bind.
    + exists None. split; [done |]. intros today_str timestamp d.
      pose proof (count_today_indep "" today_str events) as Hc.
      rewrite E0 in Hc. destruct Hc as [n Hn]. exists n.
      job_step Hn. by rewrite catch_all_lift_bind.
  - exists None. split; [done |]. intros today_str timestamp d.
    pose proof (count_today_indep "" today_str events) as Hc.
    rewrite E0 in Hc. destruct Hc as [x Hx]. exists 0%nat.
    by job_step Hx.
Qed.

Section StoredItems.
Context {rt : PyRuntime}.

(** The items a calendar cycle stores are a function of the upstream
    answers alone. *)
Lemma get_calendar_events_run (page1 page2 : result json) :
  ∃ r : option (gmap string json),
    (∀ m, r = Some m → ∀ k ev, m !! k = Some ev → getitem ev "id" = Ok (JStr k)) ∧
    ∀ (today_str timestamp : string) (d : option event_doc),
    ∃ n,
      CalendarEvents.get_calendar_events page1 page2 today_str timestamp d
      = (Ok (),
         match r with
         | Some m => Some {| items := m; todayCount := n;
                             lastUpdated := timestamp |}
         | None => d
         end).
Proof.
  unfold CalendarEvents.get_calendar_events.
  destruct (CalendarEvents.fetch_localist_events page1 page2)
    as [raw_events|x] eqn:Ef.
  2: { exists None. split; [done |]. intros. exists 0%nat.
       by rewrite catch_all_lift_bind. }
  destruct (py_iter raw_events) as [raw_items|x] eqn:Ei.
  2: { exists None. split; [done |]. intros. exists 0%nat.
       rewrite catch_all_lift_bind. by job_step Ei. }
  destruct (map_result CalendarEvents.format_event raw_items)
    as [events|x] eqn:Em.
  2: { exists None. split; [done |]. intros. exists 0%nat.
       rewrite catch_all_lift_bind. job_step Ei. by job_step Em. }
  destruct events as [|e events].
  { exists None. split; [done |]. intros. exists 0%nat.
    rewrite catch_all_lift_bind. job_step Ei. by job_step Em. }
  destruct (write_events_run (e :: events)) as (r & Hkeys & Hrun).
  exists r. split; [done |]. intros today_str timestamp d.
  destruct (Hrun today_str timestamp d) as [n Hn]. exists n.
  rewrite catch_all_lift_bind. job_step Ei. by job_step Em.
Qed.

(** The same for an organization cycle. *)
Lemma get_organization_events_run (events_response orgs_response : result json) :
  ∃ r : option (gmap string json),
    (∀ m, r = Some m → ∀ k ev, m !! k = Some ev → getitem ev "id" = Ok (JStr k)) ∧
    ∀ (today_str timestamp : string) (d : option event_doc),
    ∃ n,
      OrganizationEvents.get_organization_events events_response orgs_response
        today_str timestamp d
      = (Ok (),
         match r with
         | Some m => Some {| items := m; todayCount := n;
                             lastUpdated := timestamp |}
         | None => d
         end).
Proof.
  unfold OrganizationEvents.get_organization_events.
  destruct (OrganizationEvents.fetch_engage_events events_response)
    as [raw_events|x] eqn:Ef.
  2: { exists None. split; [done |]. intros. exists 0%nat.
       by rewrite catch_all_lift_bind. }
  destruct (py_len raw_events) as [len|x] eqn:El.
  2: { exists None. split; [done |]. intros. exists 0%nat.
       rewrite catch_all_lift_bind. by job_step El. }
  destruct (truthy raw_events) eqn:Et.
  2: { exists None. split; [done |]. intros. exists 0%nat.
       rewrite catch_all_lift_bind. job_step El. by rewrite Et. }
  destruct (py_iter raw_events) as [raw_items|x] eqn:Ei.
  2: { exists None. split; [done |]. intros. exists 0%nat.
       rewrite catch_all_lift_bind. job_step El. rewrite Et. cbn [negb].
       by job_step Ei. }
  destruct (OrganizationEvents.collect_org_ids raw_items [])
    as [org_ids|x] eqn:Eo.
  2: { exists None. split; [done |]. intros. exists 0%nat.
       rewrite catch_all_lift_bind. job_step El. rewrite Et. cbn [negb].
       job_step Ei. by job_step Eo. }
  destruct (map_result
              (λ item, OrganizationEvents.format_event item
                 (OrganizationEvents.fetch_organization_names org_ids orgs_response))
              raw_items) as [events|x] eqn:Em.
  2: { exists None. split; [done |]. intros. exists 0%nat.
       rewrite catch_all_lift_bind. job_step El. rewrite Et. cbn [negb].
       job_step Ei. job_step Eo. by job_step Em. }
  destruct (write_events_run events) as (r & Hkeys & Hrun).
  exists r. split; [done |]. intros today_str timestamp d.
  destruct (Hrun today_str timestamp d) as [n Hn]. exists n.
  rewrite catch_all_lift_bind. job_step El. rewrite Et. cbn [negb].
  job_step Ei. job_step Eo. by job_step Em.
Qed.

End StoredItems.

Section Idempotence.
Context {rt : PyRuntime}.

Lemma run_twice_same_items (job : string → string → io (option event_doc) unit) :
  (∃ r : option (gmap string json),
     ∀ today_str timestamp d, ∃ n,
       job today_str timestamp d
       = (Ok (),
          match r with
          | Some m => Some {| items := m; todayCount := n;
                              lastUpdated := timestamp |}
          | None => d
          end)) →
  ∀ today1 timestamp1 today2 timestamp2 d,
    items <$> (job today2 timestamp2 (job today1 timestamp1 d).2).2
    = items <$> (job today1 timestamp1 d).2.
Proof.
  intros (r & Hrun) today1 timestamp1 today2 timestamp2 d.
  destruct (Hrun today1 timestamp1 d) as [n1 ->]. cbn [snd].
  destruct r as [m|].
  - by destruct (Hrun today2 timestamp2
                   (Some {| items := m; todayCount := n1;
                            lastUpdated := timestamp1 |})) as [n2 ->].
  - by destruct (Hrun today2 timestamp2 d) as [n2 ->].
Qed.

(** C7: an event job that runs twice on the same upstream answers leaves
    the same items map after the second run as after the first, whatever
    the two clocks say and whatever was stored before; the items are a
    function of the upstream answers alone and every event sits under its
    own id.  The id of an event is the source tag, "localist_" or
    "engage_", followed by the upstream id. *)
Theorem event_jobs_idempotent :
  (∀ page1 page2 today1 timestamp1 today2 timestamp2 d,
     items <$> (CalendarEvents.get_calendar_events page1 page2 today2 timestamp2
                  (CalendarEvents.get_calendar_events page1 page2
                     today1 timestamp1 d).2).2
     = items <$> (CalendarEvents.get_calendar_events page1 page2
                    today1 timestamp1 d).2) ∧
  (∀ events_response orgs_response today1 timestamp1 today2 timestamp2 d,
     items <$> (OrganizationEvents.get_organization_events
                  events_response orgs_response today2 timestamp2
                  (OrganizationEvents.get_organization_events
                     events_response orgs_response today1 timestamp1 d).2).2
     = items <$> (OrganizationEvents.get_organization_events
                    events_response orgs_response today1 timestamp1 d).2) ∧
  (∀ page1 page2,
     ∃ r : option (gmap string json),
       (∀ m, r = Some m →
             ∀ k ev, m !! k = Some ev → getitem ev "id" = Ok (JStr k)) ∧
       ∀ today_str timestamp d, ∃ n,
         CalendarEvents.get_calendar_events page1 page2 today_str timestamp d
         = (Ok (),
            match r with
            | Some m => Some {| items := m; todayCount := n;
                                lastUpdated := timestamp |}
            | None => d
            end)) ∧
  (∀ events_response orgs_response,
     ∃ r : option (gmap string json),
       (∀ m, r = Some m →
             ∀ k ev, m !! k = Some ev → getitem ev "id" = Ok (JStr k)) ∧
       ∀ today_str timestamp d, ∃ n,
         OrganizationEvents.get_organization_events events_response orgs_response
           today_str timestamp d
         = (Ok (),
            match r with
            | Some m => Some {| items := m; todayCount := n;
                                lastUpdated := timestamp |}
            | None => d
            end)) ∧
  (∀ item ev,
     CalendarEvents.format_event item = Ok ev →
     ∃ id,
       (e ← dict_get item "event" (JObj []); dict_get e "id" (JStr "")) = Ok id ∧
       getitem ev "id" = Ok (JStr ("localist_" +:+ py_str id))) ∧
  (∀ item org_map ev,
     OrganizationEvents.format_event item org_map = Ok ev →
     ∃ id,
       dict_get item "id" (JStr "") = Ok id ∧
       getitem ev "id" = Ok (JStr ("engage_" +:+ py_str id))).
Proof.
  split_and!.
  - intros page1 page2.
    apply (run_twice_same_items
             (CalendarEvents.get_calendar_events page1 page2)).
    destruct (get_calendar_events_run page1 page2) as (r & _ & Hrun). eauto.
  - intros events_response orgs_response.
    apply (run_twice_same_items
             (OrganizationEvents.get_organization_events
                events_response orgs_response)).
    destruct (get_organization_events_run events_response orgs_response)
      as (r & _ & Hrun). eauto.
  - apply get_calendar_events_run.
  - apply get_organization_events_run.
  - intros item ev Hf. unfold CalendarEvents.format_event in Hf.
    cbv zeta in Hf. inv_bind Hf. subst ev.
    match goal with
    | He : dict_get item "event" _ = Ok ?e,
      Hi : dict_get ?e "id" _ = Ok ?id |- _ =>
        exists id; rewrite He; simpl; rewrite Hi
    end.
    done.
  - intros item org_map ev Hf. unfold OrganizationEvents.format_event in Hf.
    cbv zeta in Hf. inv_bind Hf. subst ev.
    match goal with
    | Hi : dict_get item "id" _ = Ok ?id |- _ => exists id
    end.
    done.
Qed.

End Idempotence.

Lemma event_jobs_idempotent_witness :
  CalendarEvents.format_event (H := TestRuntime.runtime) Samples.calendar_item
  = Ok (Samples.ok_or_null
          (CalendarEvents.format_event (H := TestRuntime.runtime)
             Samples.calendar_item)) ∧
  ∃ id,
    (e ← dict_get Samples.calendar_item "event" (JObj []);
     dict_get e "id" (JStr "")) = Ok id ∧
    getitem (Samples.ok_or_null
               (CalendarEvents.format_event (H := TestRuntime.runtime)
                  Samples.calendar_item)) "id"
    = Ok (JStr ("localist_" +:+ py_str (PyRuntime := TestRuntime.runtime) id)).
Proof.
  assert (Hf : CalendarEvents.format_event (H := TestRuntime.runtime)
                 Samples.calendar_item
               = Ok (Samples.ok_or_null
                       (CalendarEvents.format_event (H := TestRuntime.runtime)
                          Samples.calendar_item))) by reflexivity.
  split; [exact Hf |].
  exact (proj1 (proj2 (proj2 (proj2 (proj2
           (event_jobs_idempotent (rt := TestRuntime.runtime))))))
           Samples.calendar_item _ Hf).
Defined.

(** Both jobs on samples: the first run replaces the document, the second
    run, at another time, stores the same items. *)
Example event_jobs_samples :
  let page := Ok (JObj [("events", JArr [Samples.calendar_item;
                                         Samples.calendar_item_repeated_type])]) in
  let run1 :=
    (CalendarEvents.get_calendar_events (H := TestRuntime.runtime) page page
       "2024-05-01" "2024-05-01 09:00:00 AM" None).2 in
  let run2 :=
    (CalendarEvents.get_calendar_events (H := TestRuntime.runtime) page page
       "2024-05-02" "2024-05-02 09:00:00 AM" run1).2 in
  (dom <$> (items <$> run1)) = Some {[ "localist_4711"; "localist_4712" ]} ∧
  items <$> run2 = items <$> run1 ∧
  todayCount <$> run1 = Some 1%nat ∧
  todayCount <$> run2 = Some 0%nat ∧
  let answer := Ok (JObj [("items", JArr [Samples.engage_item])]) in
  let orgs := Ok (JObj [("items", JArr [])]) in
  (dom <$> (items <$>
     (OrganizationEvents.get_organization_events (H := TestRuntime.runtime)
        answer orgs "2024-05-02" "2024-05-02 09:00:00 AM" None).2))
  = Some {[ "engage_99" ]}.
Proof. vm_compute. split_and!; reflexivity. Qed.

(** * Further properties of the jobs *)

Local Open Scope list_scope.

(** ** Parking: what no cycle does *)

Section ParkingInvariants.
Context {rt : PyRuntime}.

(** A property of the store that every update of the loop keeps holds
    after the loop, however the loop ends. *)
Lemma update_lots_keeps (P : Parking.db → Prop)
    (stored : gmap string (gmap string json)) (parking_lots : list json)
    (updated : gset string) (d : Parking.db) :
  P d →
  (∀ d0 lot key data,
     P d0 →
     Parking.build_lot_data lot (default ∅ (stored !! key)) key = Ok data →
     P {| Parking.lots := Parking.merge_lot key data (Parking.lots d0);
          Parking.lastUpdated := Parking.lastUpdated d0;
          Parking.writes := Parking.writes d0 ++ [Parking.Update key data] |}) →
  P (Parking.update_lots stored parking_lots updated d).2.
Proof.
  intros Hd Hstep. revert updated d Hd.
  induction parking_lots as [|lot rest IH]; intros updated d Hd; [done |].
  rewrite update_lots_cons.
  destruct (dict_get lot "location_name" JNull) as [name|e]; [| done].
  destruct (negb (truthy name)); [by apply IH |].
  destruct (Parking.lot_key_from_name name) as [key|e]; [| done].
  destruct (Parking.build_lot_data lot (default ∅ (stored !! key)) key)
    as [data|e] eqn:Eb; [| done].
  apply IH. by eapply Hstep.
Qed.

Lemma record_kept_stored (stored : gmap string (gmap string json)) :
  record_kept stored stored.
Proof.
  intros k r Hr. exists ∅. rewrite Hr. simpl.
  split_and!; [by rewrite (left_id_L ∅ (∪)) | done | by left].
Qed.

Lemma record_kept_merge (stored lots : gmap string (gmap string json))
    (lot : json) (key : string) (data : list (string * json)) :
  record_kept stored lots →
  (∀ k, is_Some (stored !! k) → is_Some (lots !! k)) →
  Parking.build_lot_data lot (default ∅ (stored !! key)) key = Ok data →
  record_kept stored (Parking.merge_lot key data lots).
Proof.
  intros Hk Hdom Hb k r. unfold Parking.merge_lot.
  apply build_lot_data_fields in Hb as [Hf Hh].
  rewrite stored_hidden_default in Hh.
  destruct (decide (key = k)) as [->|Hne].
  2: { rewrite lookup_insert_ne by done. apply Hk. }
  rewrite lookup_insert_eq. intros [= <-].
  assert (Hout : ∀ f, f ∉ normalized_fields →
                      (list_to_map data : gmap string json) !! f = None).
  { intros f Hnf. rewrite list_to_map_assoc.
    destruct (assoc f data) as [v|] eqn:E; [| done].
    apply assoc_elem_of in E. exfalso. apply Hnf. rewrite <- Hf.
    apply list_elem_of_fmap. by exists (f, v). }
  destruct (lots !! k) as [r0|] eqn:El.
  - destruct (Hk k r0 El) as (upd0 & -> & Hout0 & Hh0). simpl.
    exists (list_to_map data ∪ upd0). split_and!.
    + by rewrite (assoc_L (∪)).
    + intros f Hnf. rewrite lookup_union, Hout, Hout0 by done. done.
    + right. apply lookup_union_Some_l. by rewrite list_to_map_assoc.
  - assert (Hs : stored !! k = None).
    { destruct (stored !! k) eqn:Es; [| done].
      destruct (Hdom k) as [? Hx]; [by rewrite Es | congruence]. }
    exists (list_to_map data). rewrite Hs. simpl. split_and!; [done | done |].
    right. by rewrite list_to_map_assoc.
Qed.

Lemma merge_lot_dom (stored lots : gmap string (gmap string json))
    (key : string) (data : list (string * json)) :
  (∀ k, is_Some (stored !! k) → is_Some (lots !! k)) →
  ∀ k, is_Some (stored !! k) → is_Some (Parking.merge_lot key data lots !! k).
Proof.
  intros Hdom k Hk. unfold Parking.merge_lot.
  destruct (decide (key = k)) as [->|Hne].
  - rewrite lookup_insert_eq. eauto.
  - rewrite lookup_insert_ne by done. by apply Hdom.
Qed.

(** The loop keeps every stored key and the form of every record, and
    only appends to the list of writes. *)
Lemma update_lots_state (parking_lots : list json) (updated : gset string)
    (d : Parking.db) :
  let d1 := (Parking.update_lots (Parking.lots d) parking_lots updated d).2 in
  record_kept (Parking.lots d) (Parking.lots d1) ∧
  (∀ k, is_Some (Parking.lots d !! k) → is_Some (Parking.lots d1 !! k)) ∧
  Parking.lastUpdated d1 = Parking.lastUpdated d ∧
  ∃ w : list Parking.write, Parking.writes d1 = (Parking.writes d ++ w)%list ∧
       ∀ k, Parking.Delete k ∉ w.
Proof.
  set (stored := Parking.lots d).
  apply (update_lots_keeps
           (λ d1, record_kept stored (Parking.lots d1) ∧
                  (∀ k, is_Some (stored !! k) → is_Some (Parking.lots d1 !! k)) ∧
                  Parking.lastUpdated d1 = Parking.lastUpdated d ∧
                  ∃ w : list Parking.write, Parking.writes d1 = (Parking.writes d ++ w)%list ∧
                       ∀ k, Parking.Delete k ∉ w)).
  - split_and!; [apply record_kept_stored | done | done |].
    exists []. split; [by rewrite app_nil_r |]. intros k. apply not_elem_of_nil.
  - intros d0 lot key data (Hk & Hdom & Hl & w & Hw & Hnd) Hb. simpl.
    split_and!.
    + by eapply record_kept_merge.
    + by apply merge_lot_dom.
    + done.
    + exists (w ++ [Parking.Update key data]). split.
      * by rewrite Hw, app_assoc.
      * intros k [Hin|Hin]%elem_of_app; [by apply (Hnd k) |].
        by apply list_elem_of_singleton in Hin.
Qed.

Lemma record_kept_delete (stored lots : gmap string (gmap string json))
    (keys : list string) :
  record_kept stored lots →
  record_kept stored (foldl (λ m k, delete k m) lots keys).
Proof.
  intros Hk k r. rewrite foldl_delete_lookup.
  destruct (decide (k ∈ keys)); [done | apply Hk].
Qed.

(** Every run of the job does nothing or is a run of [reconcile]. *)
Lemma get_live_parking_shape (fetched : result json) (timestamp_str : string)
    (d : Parking.db) :
  Parking.get_live_parking fetched timestamp_str d = (Ok (), d) ∨
  ∃ parking_lots,
    Parking.get_live_parking fetched timestamp_str d
    = catch_all (Parking.reconcile parking_lots timestamp_str) d.
Proof.
  unfold Parking.get_live_parking. rewrite catch_all_lift_bind.
  destruct fetched as [response|e]; [| by left].
  destruct response as [| | | | |items|]; try by left.
  destruct items as [|first rest]; [by left |].
  destruct first as [| | | | |inner|]; try (right; by eexists).
  destruct inner as [|lot inner]; [by left | right; by eexists].
Qed.

(** [reconcile] under the handler of the job: the deletes and the time
    stamp follow a loop that ends well; a loop that raises ends the run. *)
Lemma reconcile_catch (parking_lots : list json) (timestamp_str : string)
    (d : Parking.db) :
  catch_all (Parking.reconcile parking_lots timestamp_str) d
  = match Parking.update_lots (Parking.lots d) parking_lots ∅ d with
    | (Ok updated, d1) =>
        let obsolete := elements (dom (Parking.lots d) ∖ updated) in
        (Ok (),
         {| Parking.lots := foldl (λ m k, delete k m) (Parking.lots d1) obsolete;
            Parking.lastUpdated := Some timestamp_str;
            Parking.writes :=
              (Parking.writes d1 ++ (Parking.Delete <$> obsolete))
              ++ [Parking.SetLastUpdated timestamp_str] |})
    | (Raise _, d1) => (Ok (), d1)
    end.
Proof.
  unfold Parking.reconcile, catch_all.
  unfold mbind at 1. unfold io_bind at 1. unfold io_get.
  unfold mbind at 1. unfold io_bind at 1.
  destruct (Parking.update_lots (Parking.lots d) parking_lots ∅ d)
    as [[updated|e] d1]; [| done].
  unfold mbind at 1. unfold io_bind at 1. by rewrite delete_lots_run.
Qed.

(** Where a run of [reconcile] under the handler of the job ends. *)
Lemma reconcile_final (parking_lots : list json) (timestamp_str : string)
    (d : Parking.db) :
  let final := (catch_all (Parking.reconcile parking_lots timestamp_str) d).2 in
  record_kept (Parking.lots d) (Parking.lots final) ∧
  ((∀ k, is_Some (Parking.lots d !! k) → is_Some (Parking.lots final !! k)) ∨
   ∃ w : list Parking.write,
     Parking.writes final
     = Parking.writes d ++ w ++ [Parking.SetLastUpdated timestamp_str]).
Proof.
  pose proof (update_lots_state parking_lots ∅ d) as Hs.
  rewrite reconcile_catch.
  destruct (Parking.update_lots (Parking.lots d) parking_lots ∅ d)
    as [[updated|e] d1] eqn:Eu; simpl in Hs;
    destruct Hs as (Hk & Hdom & Hl & w & Hw & _).
  - cbn [snd Parking.lots Parking.writes]. split.
    + by apply record_kept_delete.
    + right.
      exists (w ++ (Parking.Delete
                      <$> elements (dom (Parking.lots d) ∖ updated))).
      rewrite Hw. by rewrite <- !app_assoc.
  - simpl. split; [done | by left].
Qed.

(** In every parking cycle, also one that is cut short by an exception, a
    lot that was stored and is still stored keeps every field but the six
    the feed supplies, and keeps its [isHidden] flag. *)
Theorem parking_cycle_keeps_stored_fields (fetched : result json)
    (timestamp_str : string) (d : Parking.db) (k : string)
    (r0 r : gmap string json) :
  Parking.lots d !! k = Some r0 →
  Parking.lots (Parking.get_live_parking fetched timestamp_str d).2 !! k
  = Some r →
  (∀ f, f ∉ normalized_fields → r !! f = r0 !! f) ∧
  (∀ h, r0 !! "isHidden" = Some h → r !! "isHidden" = Some h).
Proof.
  intros H0 Hr.
  assert (Hk : record_kept (Parking.lots d)
                 (Parking.lots (Parking.get_live_parking fetched timestamp_str d).2)).
  { destruct (get_live_parking_shape fetched timestamp_str d)
      as [-> | [parking_lots ->]].
    - apply record_kept_stored.
    - apply reconcile_final. }
  destruct (Hk k r Hr) as (upd & -> & Hout & Hh).
  rewrite H0. simpl. split.
  - intros f Hf. by rewrite lookup_union_r by by apply Hout.
  - intros h Hh0. destruct Hh as [Hn | Hs].
    + by rewrite lookup_union_r.
    + apply lookup_union_Some_l. rewrite Hs. unfold stored_hidden.
      rewrite H0. simpl. by rewrite Hh0.
Qed.


End ParkingInvariants.


Lemma parking_cycle_keeps_stored_fields_witness :
  ∃ r0 r,
    Parking.lots (Samples.parking_db Samples.stored_lots) !! "deckA" = Some r0 ∧
    Parking.lots
      (Parking.get_live_parking (H := TestRuntime.runtime)
         (Ok (JArr [JArr Samples.fetched_lots])) "2024-05-01 09:00:00 AM"
         (Samples.parking_db Samples.stored_lots)).2 !! "deckA" = Some r ∧
    (∀ f, f ∉ normalized_fields → r !! f = r0 !! f) ∧
    (∀ h, r0 !! "isHidden" = Some h → r !! "isHidden" = Some h).
Proof.
  assert (H0 : ∃ r0, Parking.lots (Samples.parking_db Samples.stored_lots)
                       !! "deckA" = Some r0) by (vm_compute; eauto).
  assert (H1 : ∃ r, Parking.lots
                 (Parking.get_live_parking (H := TestRuntime.runtime)
                    (Ok (JArr [JArr Samples.fetched_lots]))
                    "2024-05-01 09:00:00 AM"
                    (Samples.parking_db Samples.stored_lots)).2 !! "deckA"
               = Some r) by (vm_compute; eauto).
  destruct H0 as [r0 H0]. destruct H1 as [r H1].
  exists r0, r. split; [exact H0 |]. split; [exact H1 |].
  exact (parking_cycle_keeps_stored_fields (rt := TestRuntime.runtime)
           (Ok (JArr [JArr Samples.fetched_lots])) "2024-05-01 09:00:00 AM"
           (Samples.parking_db Samples.stored_lots) "deckA" r0 r H0 H1).
Defined.

(** ** Parking: the shape of a key *)


















(** ** Parking: the fields of a lot *)

Lemma list_ascii_app (s t : string) :
  list_ascii_of_string (s +:+ t)
  = list_ascii_of_string s ++ list_ascii_of_string t.
Proof.
  induction s as [|c s IH]; [done |].
  rewrite append_cons. simpl. by rewrite IH.
Qed.

Lemma string_of_list_app (l m : list ascii) :
  string_of_list_ascii (l ++ m)
  = string_of_list_ascii l +:+ string_of_list_ascii m.
Proof.
  induction l as [|c l IH]; [done |].
  simpl. by rewrite IH, append_cons.
Qed.

Lemma str_rev_app (s t : string) : str_rev (s +:+ t) = str_rev t +:+ str_rev s.
Proof.
  unfold str_rev. by rewrite list_ascii_app, rev_app_distr, string_of_list_app.
Qed.

Lemma str_rev_involutive (s : string) : str_rev (str_rev s) = s.
Proof.
  unfold str_rev.
  by rewrite list_ascii_of_string_of_list_ascii, rev_involutive,
             string_of_list_ascii_of_string.
Qed.

Lemma plain_rev (s : string) : plain s = true → plain (str_rev s) = true.
Proof.
  unfold plain, str_rev. rewrite list_ascii_of_string_of_list_ascii.
  rewrite !forallb_forall. intros Hs c Hc. apply Hs. by apply in_rev.
Qed.

Lemma plain_char (c : ascii) :
  char_in c "()," = false → char_in c "()" = false ∧ Ascii.eqb c "," = false.
Proof.
  unfold char_in. simpl.
  destruct (Ascii.eqb c "("); [done |].
  destruct (Ascii.eqb c ")"); [done |].
  by destruct (Ascii.eqb c ",").
Qed.

(** Nothing is stripped from a plain piece followed by a comma. *)
Lemma lstrip_plain (x rest : string) :
  plain x = true →
  lstrip "()" (x +:+ String "," rest) = x +:+ String "," rest.
Proof.
  destruct x as [|c x]; [done |]. intros Hx.
  rewrite append_cons. unfold plain in Hx. simpl in Hx.
  apply andb_prop in Hx as [Hc _]. apply negb_true_iff in Hc.
  apply plain_char in Hc as [Hc _]. simpl. by rewrite Hc.
Qed.

Lemma strip_geocode (x y : string) :
  plain x = true → plain y = true →
  strip "()" ("(" +:+ x +:+ "," +:+ y +:+ ")") = x +:+ "," +:+ y.
Proof.
  intros Hx Hy. unfold strip.
  assert (H1 : lstrip "()" ("(" +:+ x +:+ "," +:+ y +:+ ")")
               = x +:+ String "," (y +:+ ")")).
  { rewrite append_cons, append_nil_l. simpl. by apply lstrip_plain. }
  rewrite H1.
  assert (H2 : str_rev (x +:+ String "," (y +:+ ")"))
               = String ")" (str_rev y +:+ String "," (str_rev x))).
  { change (String "," (y +:+ ")")) with ("," +:+ y +:+ ")").
    rewrite !str_rev_app. by rewrite !append_assoc. }
  rewrite H2. simpl.
  rewrite lstrip_plain by by apply plain_rev.
  change (String "," (str_rev x)) with ("," +:+ str_rev x).
  rewrite !str_rev_app, !str_rev_involutive. by rewrite append_assoc.
Qed.

Lemma split_on_go_plain (x w rest : string) :
  plain x = true →
  split_on_go "," w (x +:+ rest) = split_on_go "," (w +:+ x) rest.
Proof.
  revert w. induction x as [|c x IH]; intros w Hx.
  - by rewrite append_nil_l, append_nil_r.
  - unfold plain in Hx. simpl in Hx. apply andb_prop in Hx as [Hc Hx].
    apply negb_true_iff in Hc. apply plain_char in Hc as [_ Hc].
    rewrite append_cons. simpl. rewrite Hc.
    rewrite IH by done. by rewrite append_assoc, append_cons, append_nil_l.
Qed.

Lemma split_on_geocode (x y : string) :
  plain x = true → plain y = true →
  split_on "," (x +:+ "," +:+ y) = [x; y].
Proof.
  intros Hx Hy. unfold split_on.
  rewrite split_on_go_plain, append_nil_l by done.
  rewrite append_cons, append_nil_l. simpl.
  rewrite <- (append_nil_r y) at 1.
  by rewrite split_on_go_plain, append_nil_l by done.
Qed.

Section LotFields.
Context {rt : PyRuntime}.

(** A geocode in the format of the feed, "(lat,lng)", is decoded to the
    pair of both numbers; when one of the two pieces is no number the
    coordinate is null, and no exception is raised. *)
Theorem parse_coordinate_decodes (x y : string) :
  plain x = true → plain y = true →
  Parking.parse_coordinate (JStr ("(" +:+ x +:+ "," +:+ y +:+ ")"))
  = Ok (match str_to_float x, str_to_float y with
        | Some a, Some b => JObj [("lat", JFloat a); ("lng", JFloat b)]
        | _, _ => JNull
        end).
Proof.
  intros Hx Hy. unfold Parking.parse_coordinate.
  rewrite strip_geocode, split_on_geocode by done. simpl.
  destruct (str_to_float x) as [a|]; [| done]. simpl.
  by destruct (str_to_float y) as [b|].
Qed.

(** Whatever the geocode is, [parse_coordinate] raises nothing and returns
    null or a pair of two numbers. *)
Theorem parse_coordinate_null_or_pair (geocode_str : json) :
  Parking.parse_coordinate geocode_str = Ok JNull ∨
  ∃ a b, Parking.parse_coordinate geocode_str
         = Ok (JObj [("lat", JFloat a); ("lng", JFloat b)]).
Proof.
  unfold Parking.parse_coordinate.
  destruct geocode_str as [| | | |s| |]; try by left.
  destruct (split_on "," (strip "()" s)) as [|p [|q [|? ?]]]; try by left.
  simpl. destruct (str_to_float p) as [a|]; [| by left]. simpl.
  destruct (str_to_float q) as [b|]; [| by left]. right. by exists a, b.
Qed.

End LotFields.

Lemma parse_coordinate_decodes_witness :
  plain "35.5" = true ∧ plain " -78.25" = true ∧
  Parking.parse_coordinate (H := TestRuntime.runtime)
    (JStr ("(" +:+ "35.5" +:+ "," +:+ " -78.25" +:+ ")"))
  = Ok (match str_to_float (PyRuntime := TestRuntime.runtime) "35.5",
              str_to_float (PyRuntime := TestRuntime.runtime) " -78.25" with
        | Some a, Some b => JObj [("lat", JFloat a); ("lng", JFloat b)]
        | _, _ => JNull
        end).
Proof.
  split; [reflexivity |]. split; [reflexivity |].
  exact (parse_coordinate_decodes (rt := TestRuntime.runtime)
           "35.5" " -78.25" eq_refl eq_refl).
Defined.

Section LotData.
Context {rt : PyRuntime}.



End LotData.

(** ** Busyness: the cycle *)

Section BusynessJob.
Context {rt : PyRuntime}.


(** The locations a cycle collects: every entry is a fetched location with
    a non-empty id, built by [build_location] and keyed by the text of
    that id; a location without an id, or with the id 0, adds no entry;
    and every location with an id has its key in the result. *)
Theorem collect_locations_entries (locations : list json)
    (updates : gmap string json) :
  Busyness.collect_locations locations ∅ = Ok updates →
  (∀ k built,
     updates !! k = Some built →
     ∃ location loc_id,
       location ∈ locations ∧
       dict_get location "id" JNull = Ok loc_id ∧
       truthy loc_id = true ∧
       k = py_str loc_id ∧
       Busyness.build_location location = Ok built) ∧
  (∀ location loc_id,
     location ∈ locations →
     dict_get location "id" JNull = Ok loc_id →
     truthy loc_id = true →
     is_Some (updates !! py_str loc_id)).
Proof.
  assert (Hgen : ∀ acc,
            Busyness.collect_locations locations acc = Ok updates →
            (∀ k built,
               updates !! k = Some built →
               acc !! k = Some built ∨
               ∃ location loc_id,
                 location ∈ locations ∧
                 dict_get location "id" JNull = Ok loc_id ∧
                 truthy loc_id = true ∧
                 k = py_str loc_id ∧
                 Busyness.build_location location = Ok built) ∧
            (∀ k, is_Some (acc !! k) → is_Some (updates !! k)) ∧
            (∀ location loc_id,
               location ∈ locations →
               dict_get location "id" JNull = Ok loc_id →
               truthy loc_id = true →
               is_Some (updates !! py_str loc_id))).
  { induction locations as [|location rest IH]; intros acc Hc; simpl in Hc.
    - injection Hc as <-. split_and!; [by left | done |].
      by intros ? ? ?%elem_of_nil.
    - apply bind_Ok in Hc as (loc_id & Hid & Hc).
      destruct (truthy loc_id) eqn:Et; simpl in Hc.
      + apply bind_Ok in Hc as (built & Hb & Hc).
        destruct (IH _ Hc) as (Hin & Hmono & Hall). split_and!.
        * intros k v Hk. destruct (Hin k v Hk) as [Hacc | Hrest].
          -- destruct (decide (py_str loc_id = k)) as [<-|Hne].
             ++ rewrite lookup_insert_eq in Hacc. injection Hacc as <-.
                right. exists location, loc_id.
                split_and!; [left | done..].
             ++ rewrite lookup_insert_ne in Hacc by done. by left.
          -- destruct Hrest as (l & i & Hl & ?). right. exists l, i.
             split; [by right | done].
        * intros k Hk. apply Hmono.
          destruct (decide (py_str loc_id = k)) as [<-|Hne].
          -- rewrite lookup_insert_eq. eauto.
          -- by rewrite lookup_insert_ne.
        * intros l i [->|Hl]%elem_of_cons Hi Hti; [| by eapply Hall].
          rewrite Hid in Hi. injection Hi as <-.
          apply Hmono. rewrite lookup_insert_eq. eauto.
      + destruct (IH _ Hc) as (Hin & Hmono & Hall). split_and!.
        * intros k v Hk. destruct (Hin k v Hk) as [Hacc | Hrest]; [by left |].
          destruct Hrest as (l & i & Hl & ?). right. exists l, i.
          split; [by right | done].
        * done.
        * intros l i [->|Hl]%elem_of_cons Hi Hti; [| by eapply Hall].
          rewrite Hid in Hi. injection Hi as <-. congruence. }
  intros Hc. destruct (Hgen ∅ Hc) as (Hin & _ & Hall). split; [| done].
  intros k built Hk. destruct (Hin k built Hk) as [Hacc | ?]; [| done].
  by rewrite lookup_empty in Hacc.
Qed.

End BusynessJob.

(** ** Busyness: the records *)

Lemma occupancy_status_number (occupancy : json) (status : string) :
  Busyness.occupancy_status occupancy = Ok status →
  ∃ q, as_number occupancy = Some q.
Proof.
  unfold Busyness.occupancy_status, ge_int.
  destruct (as_number occupancy) as [q|]; [eauto | done].
Qed.

Lemma build_sublocation_consistent (subloc record : json) :
  Busyness.build_sublocation subloc = Ok record → status_consistent record.
Proof.
  intros Hb. unfold Busyness.build_sublocation in Hb. inv_bind Hb. subst record.
  match goal with
  | Hs : Busyness.occupancy_status ?occ = Ok ?st |- _ =>
      destruct (occupancy_status_number occ st Hs) as [q Hq];
      by exists occ, q, st
  end.
Qed.

Lemma map_result_Forall {A B} (f : A → result B) (P : B → Prop)
    (xs : list A) (ys : list B) :
  (∀ x y, f x = Ok y → P y) → map_result f xs = Ok ys → Forall P ys.
Proof.
  intros Hf. revert ys. induction xs as [|x xs IH]; intros ys Hm; simpl in Hm.
  - by injection Hm as <-.
  - apply bind_Ok in Hm as (y & Hy & Hm).
    apply bind_Ok in Hm as (ys' & Hys & Hm). injection Hm as <-.
    constructor; [by eapply Hf | by apply IH].
Qed.

(** In every record that [build_location] returns, the occupancy of the
    location and of each of its sub-locations is a number and the status
    beside it is the status of that number; a busyness that is no number
    makes [build_location] raise instead. *)
Theorem build_location_status_consistent (location record : json) :
  Busyness.build_location location = Ok record →
  status_consistent record ∧
  ∃ subs, getitem record "subLocations" = Ok (JArr subs) ∧
          Forall status_consistent subs.
Proof.
  intros Hb. unfold Busyness.build_location in Hb. inv_bind Hb. subst record.
  split.
  - match goal with
    | Hs : Busyness.occupancy_status ?occ = Ok ?st |- _ =>
        destruct (occupancy_status_number occ st Hs) as [q Hq];
        by exists occ, q, st
    end.
  - match goal with
    | Hm : map_result Busyness.build_sublocation _ = Ok ?subs |- _ =>
        exists subs; split; [done |];
        apply (map_result_Forall _ _ _ _ build_sublocation_consistent Hm)
    end.
Qed.

Lemma build_location_status_consistent_witness :
  Busyness.build_location MoreSamples.location
  = Ok (Samples.ok_or_null (Busyness.build_location MoreSamples.location)) ∧
  status_consistent
    (Samples.ok_or_null (Busyness.build_location MoreSamples.location)) ∧
  ∃ subs,
    getitem (Samples.ok_or_null (Busyness.build_location MoreSamples.location))
      "subLocations" = Ok (JArr subs) ∧
    Forall status_consistent subs.
Proof.
  assert (Hb : Busyness.build_location MoreSamples.location
               = Ok (Samples.ok_or_null
                       (Busyness.build_location MoreSamples.location)))
    by reflexivity.
  split; [exact Hb |].
  exact (build_location_status_consistent MoreSamples.location _ Hb).
Defined.

Lemma find_best_spot_source (best_id : json) (sublocs : list json) (spot : json) :
  Busyness.find_best_spot best_id sublocs = Ok spot →
  spot = JNull ∨
  ∃ s id,
    s ∈ sublocs ∧ dict_get s "id" JNull = Ok id ∧ py_eq id best_id = true ∧
    dict_get s "name" JNull = Ok spot.
Proof.
  induction sublocs as [|s rest IH]; simpl; intros Hf.
  - left. by injection Hf as <-.
  - apply bind_Ok in Hf as (id & Hid & Hf).
    destruct (py_eq id best_id) eqn:E.
    + right. exists s, id. split_and!; [left | done..].
    + destruct (IH Hf) as [-> | (s' & id' & Hin & ?)]; [by left |].
      right. exists s', id'. split; [by right | done].
Qed.

(** The best spot of a built location is null or the name of one of the
    location's own sub-locations, one whose id is the id of the first entry
    of [bestLocations]. *)
Theorem build_location_best_spot (location record spot : json) :
  Busyness.build_location location = Ok record →
  getitem record "bestSpot" = Ok spot →
  spot = JNull ∨
  ∃ sublocs items best_locations first best_id s id,
    dict_get location "subLocs" (JArr []) = Ok sublocs ∧
    py_iter sublocs = Ok items ∧
    dict_get location "bestLocations" (JArr []) = Ok best_locations ∧
    index0 best_locations = Ok first ∧
    dict_get first "id" JNull = Ok best_id ∧
    s ∈ items ∧
    dict_get s "id" JNull = Ok id ∧
    py_eq id best_id = true ∧
    dict_get s "name" JNull = Ok spot.
Proof.
  intros Hb Hs. unfold Busyness.build_location in Hb. inv_bind Hb. subst record.
  simpl in Hs. injection Hs as <-.
  match goal with
  | Hsub : dict_get location "subLocs" _ = Ok ?sublocs,
    Hbest : dict_get location "bestLocations" _ = Ok ?bl,
    Hspot : (if truthy ?bl && truthy ?sublocs then _ else _) = Ok ?spot |- _ =>
      destruct (truthy bl && truthy sublocs);
      [| left; by injection Hspot as <-];
      inv_bind Hspot;
      match goal with
      | Hf : Busyness.find_best_spot ?bid ?items = Ok spot |- _ =>
          destruct (find_best_spot_source bid items spot Hf)
            as [-> | (s & id & Hin & Hid & Heq & Hname)]; [by left |];
          right; exists sublocs, items, bl
      end
  end.
  eexists _, _, s, id. split_and!; done.
Qed.

Lemma build_location_best_spot_witness :
  Busyness.build_location MoreSamples.location
  = Ok (Samples.ok_or_null (Busyness.build_location MoreSamples.location)) ∧
  getitem (Samples.ok_or_null (Busyness.build_location MoreSamples.location))
    "bestSpot" = Ok (JStr "Second Floor") ∧
  (JStr "Second Floor" = JNull ∨
   ∃ sublocs items best_locations first best_id s id,
     dict_get MoreSamples.location "subLocs" (JArr []) = Ok sublocs ∧
     py_iter sublocs = Ok items ∧
     dict_get MoreSamples.location "bestLocations" (JArr []) = Ok best_locations ∧
     index0 best_locations = Ok first ∧
     dict_get first "id" JNull = Ok best_id ∧
     s ∈ items ∧
     dict_get s "id" JNull = Ok id ∧
     py_eq id best_id = true ∧
     dict_get s "name" JNull = Ok (JStr "Second Floor")).
Proof.
  assert (Hb : Busyness.build_location MoreSamples.location
               = Ok (Samples.ok_or_null
                       (Busyness.build_location MoreSamples.location)))
    by reflexivity.
  assert (Hs : getitem (Samples.ok_or_null
                          (Busyness.build_location MoreSamples.location))
                 "bestSpot" = Ok (JStr "Second Floor")) by reflexivity.
  split; [exact Hb |]. split; [exact Hs |].
  exact (build_location_best_spot MoreSamples.location _ _ Hb Hs).
Defined.

Lemma collect_locations_entries_witness :
  Busyness.collect_locations (H := TestRuntime.runtime)
    [MoreSamples.location_without_id; MoreSamples.location] ∅
  = Ok {[ "7" := Samples.ok_or_null
                   (Busyness.build_location MoreSamples.location) ]} ∧
  ∀ location loc_id,
    location ∈ [MoreSamples.location_without_id; MoreSamples.location] →
    dict_get location "id" JNull = Ok loc_id →
    truthy loc_id = true →
    is_Some (({[ "7" := Samples.ok_or_null
                          (Busyness.build_location MoreSamples.location) ]}
                : gmap string json)
             !! py_str (PyRuntime := TestRuntime.runtime) loc_id).
Proof.
  assert (Hc : Busyness.collect_locations (H := TestRuntime.runtime)
                 [MoreSamples.location_without_id; MoreSamples.location] ∅
               = Ok {[ "7" := Samples.ok_or_null
                                (Busyness.build_location MoreSamples.location) ]})
    by (vm_compute; reflexivity).
  split; [exact Hc |].
  exact (proj2 (collect_locations_entries (rt := TestRuntime.runtime)
                  [MoreSamples.location_without_id; MoreSamples.location] _ Hc)).
Defined.

(** ** Weather: the readings *)

Lemma pd_set_get_str (d : pydict) (a b : string) (v : json) :
  Forall (λ kv, ∃ s, kv.1 = JStr s) d →
  pd_get (pd_set d (JStr a) v) (JStr b)
  = if String.eqb a b then Some v else pd_get d (JStr b).
Proof.
  induction 1 as [|[k v'] d [c Hc] Hd IH]; simpl.
  - by rewrite String.eqb_sym.
  - simpl in Hc. subst k. simpl.
    destruct (String.eqb c a) eqn:Eca; simpl.
    + apply String.eqb_eq in Eca as ->. by destruct (String.eqb a b).
    + rewrite IH. destruct (String.eqb c b) eqn:Ecb; [| done].
      apply String.eqb_eq in Ecb as ->.
      by rewrite String.eqb_sym, Eca.
Qed.

Lemma pd_set_str_keys (d : pydict) (a : string) (v : json) :
  Forall (λ kv, ∃ s, kv.1 = JStr s) d →
  Forall (λ kv, ∃ s, kv.1 = JStr s) (pd_set d (JStr a) v).
Proof.
  induction 1 as [|[k v'] d Hk Hd IH]; simpl.
  - repeat constructor. by exists a.
  - destruct (py_eq k (JStr a)); by constructor.
Qed.

Lemma collect_readings_last (readings : list json) (acc : pydict) :
  Forall (λ r, reading_ok r = true) readings →
  Forall (λ kv, ∃ s, kv.1 = JStr s) acc →
  ∃ d,
    Weather.collect_readings readings acc = Ok d ∧
    ∀ sensor,
      pd_get d (JStr sensor)
      = foldl (λ found r,
                 if is_reading_of sensor r
                 then match r with
                      | JObj fields => assoc "value" fields
                      | _ => found
                      end
                 else found)
              (pd_get acc (JStr sensor)) readings.
Proof.
  intros Hrs. revert acc.
  induction Hrs as [|r rest Hr Hrest IH]; intros acc Hacc.
  - by exists acc.
  - destruct r as [| | | | | |fields]; try done. simpl in Hr.
    destruct (assoc "sensor_type" fields) as [[| | | |s| |]|] eqn:Es; try done.
    destruct (assoc "value" fields) as [v|] eqn:Ev; [| done].
    destruct (IH (pd_set acc (JStr s) v) (pd_set_str_keys _ _ _ Hacc))
      as (d & Hd & Hget).
    exists d. split.
    + simpl. rewrite Es, Ev. simpl. done.
    + intros sensor. rewrite Hget, pd_set_get_str by done.
      simpl. rewrite Es, Ev. done.
Qed.

Section Readings.
Context {rt : PyRuntime}.

Lemma extract_readings_last (fields record : list (string * json))
    (readings : list json) :
  assoc "record" fields = Some (JObj record) →
  assoc "readings" record = Some (JArr readings) →
  Forall (λ r, reading_ok r = true) readings →
  ∃ d,
    Weather.extract_readings (JObj fields) = Ok d ∧
    ∀ sensor, pd_get d (JStr sensor) = last_reading sensor readings.
Proof.
  intros Hrec Hrd Hok. unfold Weather.extract_readings. simpl.
  rewrite Hrec. simpl. rewrite Hrd. simpl.
  destruct (collect_readings_last readings [] Hok (Forall_nil_2 _))
    as (d & -> & Hget).
  exists d. split; [done |]. intros sensor. apply Hget.
Qed.

(** When two readings of a station bear the same sensor type, the later
    one counts: on a list of readings that each have a sensor type and a
    value, [extract_readings] raises nothing and gives every sensor the
    value of its last reading. *)
Theorem extract_readings_last_wins (fields record : list (string * json))
    (readings : list json) :
  assoc "record" fields = Some (JObj record) →
  assoc "readings" record = Some (JArr readings) →
  Forall (λ r, reading_ok r = true) readings →
  ∃ d,
    Weather.extract_readings (JObj fields) = Ok d ∧
    ∀ sensor, pd_get d (JStr sensor) = last_reading sensor readings.
Proof.
  intros Hrec Hrd Hok. unfold Weather.extract_readings. simpl.
  rewrite Hrec. simpl. rewrite Hrd. simpl.
  destruct (collect_readings_last readings [] Hok (Forall_nil_2 _))
    as (d & -> & Hget).
  exists d. split; [done |]. intros sensor. apply Hget.
Qed.

(** A Thermometer reading whose value is empty or the number zero counts
    as no reading: the cycle writes nothing. *)
Theorem get_weather_zero_temperature (fields record : list (string * json))
    (readings others : list json) (temperature : json)
    (sun : result (Z * Z)) (timestamp_str : string) (d : Weather.db) :
  assoc "record" fields = Some (JObj record) →
  assoc "readings" record = Some (JArr readings) →
  Forall (λ r, reading_ok r = true) readings →
  last_reading "Thermometer" readings = Some temperature →
  truthy temperature = false →
  Weather.get_weather (Ok (JArr (JObj fields :: others))) sun timestamp_str d
  = (Ok (), d).
Proof.
  intros Hrec Hrd Hok Hlast Hfalsy.
  destruct (extract_readings_last fields record readings Hrec Hrd Hok)
    as (rs & Hrs & Hget).
  unfold Weather.get_weather. rewrite catch_all_lift_bind.
  cbn [Weather.select_station]. rewrite catch_all_lift_bind.
  unfold Weather.build_weather. rewrite Hrs. cbn [mbind result_bind].
  destruct (Weather.extract_camera_url (JObj fields)) as [image_url|e];
    [| done].
  cbn [mbind result_bind]. unfold Weather.reading at 1.
  rewrite Hget, Hlast. simpl. by rewrite Hfalsy.
Qed.

End Readings.

Lemma get_weather_zero_temperature_witness :
  assoc "record" MoreSamples.zero_fields = Some (JObj MoreSamples.zero_record) ∧
  assoc "readings" MoreSamples.zero_record
  = Some (JArr MoreSamples.zero_readings) ∧
  Forall (λ r, reading_ok r = true) MoreSamples.zero_readings ∧
  last_reading "Thermometer" MoreSamples.zero_readings = Some (JInt 0) ∧
  truthy (JInt 0) = false ∧
  Weather.get_weather (H := TestRuntime.runtime)
    (Ok (JArr [JObj MoreSamples.zero_fields])) (Ok (1714557600, 1714606800))
    "2024-05-01 09:00:00 AM" (Some Samples.old_weather)
  = (Ok (), Some Samples.old_weather).
Proof.
  assert (Hok : Forall (λ r, reading_ok r = true) MoreSamples.zero_readings).
  { repeat constructor. }
  split; [reflexivity |]. split; [reflexivity |]. split; [exact Hok |].
  split; [reflexivity |]. split; [reflexivity |].
  exact (get_weather_zero_temperature (rt := TestRuntime.runtime)
           MoreSamples.zero_fields MoreSamples.zero_record
           MoreSamples.zero_readings [] (JInt 0) (Ok (1714557600, 1714606800))
           "2024-05-01 09:00:00 AM" (Some Samples.old_weather)
           eq_refl eq_refl Hok eq_refl eq_refl).
Defined.

Lemma extract_readings_last_wins_witness :
  assoc "record" MoreSamples.twice_fields = Some (JObj MoreSamples.twice_record) ∧
  assoc "readings" MoreSamples.twice_record
  = Some (JArr MoreSamples.twice_readings) ∧
  Forall (λ r, reading_ok r = true) MoreSamples.twice_readings ∧
  last_reading "Thermometer" MoreSamples.twice_readings = Some (JStr "46.0") ∧
  ∃ d,
    Weather.extract_readings (JObj MoreSamples.twice_fields) = Ok d ∧
    ∀ sensor,
      pd_get d (JStr sensor) = last_reading sensor MoreSamples.twice_readings.
Proof.
  assert (Hok : Forall (λ r, reading_ok r = true) MoreSamples.twice_readings).
  { repeat constructor. }
  split; [reflexivity |]. split; [reflexivity |]. split; [exact Hok |].
  split; [reflexivity |].
  exact (extract_readings_last_wins MoreSamples.twice_fields
           MoreSamples.twice_record MoreSamples.twice_readings
           eq_refl eq_refl Hok).
Defined.

(** ** Weather: the record that is written *)




Section WeatherRecord.
Context {rt : PyRuntime}.


(** With no Wind Chill and no Heat Index among the readings, the
    [feelsLike] of the written record is its [temperature]. *)
Theorem feels_like_defaults_to_temperature (station : json)
    (sun : result (Z * Z)) (timestamp_str : string) (readings : pydict)
    (record : json) :
  Weather.extract_readings station = Ok readings →
  pd_get readings (JStr "Wind Chill") = None →
  pd_get readings (JStr "Heat Index") = None →
  Weather.build_weather station sun timestamp_str = Ok (Some record) →
  getitem record "feelsLike" = getitem record "temperature".
Proof.
  intros Hrs Hwc Hhi Hb. unfold Weather.build_weather in Hb.
  rewrite Hrs in Hb. cbn [mbind result_bind] in Hb.
  destruct (Weather.extract_camera_url station) as [image_url|e]; [| done].
  cbn [mbind result_bind] in Hb.
  destruct (truthy (Weather.reading readings "Thermometer" JNull)); [| done].
  cbn [negb] in Hb.
  apply bind_Ok in Hb as (t & Ht & Hb).
  apply bind_Ok in Hb as (feels_like & Hfl & Hb).
  assert (Hdflt : ∀ sensor dflt, pd_get readings (JStr sensor) = None →
                                   Weather.reading readings sensor dflt = dflt).
  { intros sensor dflt Hnone. unfold Weather.reading. by rewrite Hnone. }
  rewrite (Hdflt "Wind Chill" _ Hwc), (Hdflt "Heat Index" _ Hhi) in Hfl.
  assert (Hfeels : feels_like = py_round t).
  { unfold Weather.determine_feels_like in Hfl. rewrite Ht in Hfl.
    cbn [mbind result_bind] in Hfl.
    apply bind_Ok in Hfl as (cold & _ & Hfl).
    destruct cold.
    - by injection Hfl as <-.
    - apply bind_Ok in Hfl as (hot & _ & Hfl). destruct hot.
      + by injection Hfl as <-.
      + by injection Hfl as <-. }
  subst feels_like.
  destruct (Weather.sunrise_sunset sun) as [sunrise sunset].
  inv_bind Hb. subst record.
  by destruct (truthy image_url).
Qed.

(** A failure of the sunrise and sunset computation does not hold back
    the write: a station that gives a record when the computation
    succeeds gives, when it fails, the same record with both times null. *)
Theorem sunrise_failure_degrades (station : json) (sunrise sunset : Z)
    (e : exn) (timestamp_str : string) (record : json) :
  Weather.build_weather station (Ok (sunrise, sunset)) timestamp_str
  = Ok (Some record) →
  ∃ record',
    Weather.build_weather station (Raise e) timestamp_str = Ok (Some record') ∧
    getitem record' "sunrise" = Ok JNull ∧
    getitem record' "sunset" = Ok JNull ∧
    ∀ k, k ≠ "sunrise" → k ≠ "sunset" →
         getitem record' k = getitem record k.
Proof.
  unfold Weather.build_weather.
  destruct (Weather.extract_readings station) as [readings|x]; [| done].
  cbn [mbind result_bind].
  destruct (Weather.extract_camera_url station) as [image_url|x]; [| done].
  cbn [mbind result_bind].
  destruct (truthy (Weather.reading readings "Thermometer" JNull)); [| done].
  cbn [negb].
  repeat match goal with
         | |- context [mbind _ ?m] =>
             match m with
             | mbind _ _ => fail 1
             | _ => destruct m as [?|?]; cbn [mbind result_bind]; [| done]
             end
         end.
  cbn [Weather.sunrise_sunset Weather.opt_int mret result_ret].
  intros [= <-]. eexists. split; [reflexivity |].
  destruct (truthy image_url); (split_and!; [done | done |]);
    intros k Hk1 Hk2; apply String.eqb_neq in Hk1, Hk2;
    unfold getitem; cbn [assoc app]; by rewrite Hk1, Hk2.
Qed.

End WeatherRecord.


Lemma feels_like_defaults_to_temperature_witness :
  ∃ readings record,
    Weather.extract_readings MoreSamples.station_plain = Ok readings ∧
    pd_get readings (JStr "Wind Chill") = None ∧
    pd_get readings (JStr "Heat Index") = None ∧
    Weather.build_weather (H := TestRuntime.runtime) MoreSamples.station_plain
      (Ok (1714557600, 1714606800)) "2024-05-01 09:00:00 AM"
    = Ok (Some record) ∧
    getitem record "feelsLike" = getitem record "temperature".
Proof.
  eexists _, _.
  assert (Hr : Weather.extract_readings MoreSamples.station_plain
               = Ok [(JStr "Thermometer", JStr "45.2");
                     (JStr "Anemometer", JStr "12")]) by reflexivity.
  split; [exact Hr |]. split; [reflexivity |]. split; [reflexivity |].
  assert (Hb : Weather.build_weather (H := TestRuntime.runtime)
                 MoreSamples.station_plain
                 (Ok (1714557600, 1714606800)) "2024-05-01 09:00:00 AM"
               = Ok (Some (Samples.ok_or_null
                             (default JNull
                                <$> Weather.build_weather (H := TestRuntime.runtime)
                                      MoreSamples.station_plain
                                      (Ok (1714557600, 1714606800))
                                      "2024-05-01 09:00:00 AM"))))
    by reflexivity.
  split; [exact Hb |].
  exact (feels_like_defaults_to_temperature (rt := TestRuntime.runtime)
           MoreSamples.station_plain (Ok (1714557600, 1714606800))
           "2024-05-01 09:00:00 AM" _ _ Hr eq_refl eq_refl Hb).
Defined.

Lemma sunrise_failure_degrades_witness :
  Weather.build_weather (H := TestRuntime.runtime) MoreSamples.station_plain
    (Ok (1714557600, 1714606800)) "2024-05-01 09:00:00 AM"
  = Ok (Some (Samples.ok_or_null
                (default JNull
                   <$> Weather.build_weather (H := TestRuntime.runtime)
                         MoreSamples.station_plain
                         (Ok (1714557600, 1714606800))
                         "2024-05-01 09:00:00 AM"))) ∧
  ∃ record',
    Weather.build_weather (H := TestRuntime.runtime) MoreSamples.station_plain
      (Raise ValueError) "2024-05-01 09:00:00 AM" = Ok (Some record') ∧
    getitem record' "sunrise" = Ok JNull ∧
    getitem record' "sunset" = Ok JNull ∧
    ∀ k, k ≠ "sunrise" → k ≠ "sunset" →
         getitem record' k
         = getitem (Samples.ok_or_null
                      (default JNull
                         <$> Weather.build_weather (H := TestRuntime.runtime)
                               MoreSamples.station_plain
                               (Ok (1714557600, 1714606800))
                               "2024-05-01 09:00:00 AM")) k.
Proof.
  assert (Hb : Weather.build_weather (H := TestRuntime.runtime)
                 MoreSamples.station_plain
                 (Ok (1714557600, 1714606800)) "2024-05-01 09:00:00 AM"
               = Ok (Some (Samples.ok_or_null
                             (default JNull
                                <$> Weather.build_weather (H := TestRuntime.runtime)
                                      MoreSamples.station_plain
                                      (Ok (1714557600, 1714606800))
                                      "2024-05-01 09:00:00 AM"))))
    by reflexivity.
  split; [exact Hb |].
  exact (sunrise_failure_degrades (rt := TestRuntime.runtime)
           MoreSamples.station_plain 1714557600 1714606800 ValueError
           "2024-05-01 09:00:00 AM" _ Hb).
Defined.

(** ** Events: the fetchers and the text fields *)

Section EventFetch.
Context {rt : PyRuntime}.

(** The second page is asked for only when the first one counts two pages
    or more: with a smaller count, or none, the events are those of the
    first page, whatever a second request would give. *)
Theorem fetch_localist_events_single_page (fields : list (string * json))
    (total : json) (q : Q) (page2 : result json) :
  dict_get (default (JObj []) (assoc "page" fields)) "total" (JInt 1) = Ok total →
  as_number total = Some q →
  (q < 2)%Q →
  CalendarEvents.fetch_localist_events (Ok (JObj fields)) page2
  = Ok (default (JArr []) (assoc "events" fields)).
Proof.
  intros Ht Hn Hq. unfold CalendarEvents.fetch_localist_events.
  simpl. rewrite Ht. simpl. unfold ge_int. rewrite Hn. simpl.
  assert (Hlt : Qle_bool (inject_Z 2) q = false).
  { apply not_true_is_false. intros Hle. apply Qle_bool_iff in Hle.
    change (inject_Z 2) with 2%Q in Hle. lra. }
  by rewrite Hlt.
Qed.

(** With two pages or more the events of the second page follow those of
    the first; a second request that fails fails the whole fetch, the
    events of the first page included. *)
Theorem fetch_localist_events_two_pages (fields : list (string * json))
    (events1 : list json) (total : json) (q : Q) :
  assoc "events" fields = Some (JArr events1) →
  dict_get (default (JObj []) (assoc "page" fields)) "total" (JInt 1) = Ok total →
  as_number total = Some q →
  (2 <= q)%Q →
  (∀ fields2 events2,
     assoc "events" fields2 = Some (JArr events2) →
     CalendarEvents.fetch_localist_events (Ok (JObj fields)) (Ok (JObj fields2))
     = Ok (JArr (events1 ++ events2))) ∧
  (∀ e,
     CalendarEvents.fetch_localist_events (Ok (JObj fields)) (Raise e)
     = Raise e).
Proof.
  intros Hev Ht Hn Hq.
  assert (Hle : Qle_bool (inject_Z 2) q = true) by by apply Qle_bool_iff.
  split.
  - intros fields2 events2 Hev2. unfold CalendarEvents.fetch_localist_events.
    simpl. rewrite Ht. simpl. unfold ge_int. rewrite Hn. simpl.
    rewrite Hle. simpl. by rewrite Hev, Hev2.
  - intros e. unfold CalendarEvents.fetch_localist_events.
    simpl. rewrite Ht. simpl. unfold ge_int. rewrite Hn. simpl.
    by rewrite Hle.
Qed.


(** The description of an organization event is always a string: the
    text of the upstream description, or the empty string when there is
    none; it is never null.  The description of a calendar event without
    an upstream description is the upstream [description_text], the empty
    string when that is missing too. *)
Theorem format_event_description :
  (∀ item org_map ev,
     OrganizationEvents.format_event item org_map = Ok ev →
     ∃ raw text,
       dict_get item "description" (JStr "") = Ok raw ∧
       getitem ev "description" = Ok (JStr text) ∧
       (truthy raw = false → text = "") ∧
       (truthy raw = true → soup_text raw = Ok text)) ∧
  (∀ item ev,
     CalendarEvents.format_event item = Ok ev →
     ∃ e raw,
       dict_get item "event" (JObj []) = Ok e ∧
       dict_get e "description" (JStr "") = Ok raw ∧
       (truthy raw = false →
        Ok (default (JStr "") (match e with
                               | JObj fields => assoc "description_text" fields
                               | _ => None
                               end))
        = getitem ev "description")).
Proof.
  split.
  - intros item org_map ev Hf. unfold OrganizationEvents.format_event in Hf.
    cbv zeta in Hf. inv_bind Hf. subst ev.
    match goal with
    | Hd : dict_get item "description" _ = Ok ?raw,
      Hc : OrganizationEvents.clean_html ?raw = Ok ?cleaned |- _ =>
        unfold OrganizationEvents.clean_html in Hc;
        destruct (truthy raw) eqn:Et; simpl in Hc
    end.
    + match goal with
      | Hc : JStr <$> soup_text ?raw = Ok _ |- _ =>
          destruct (soup_text raw) as [text|] eqn:Es; [| done];
          injection Hc as <-; exists raw, text
      end.
      split_and!; [done | done | congruence | done].
    + match goal with
      | Hc : mret (JStr "") = Ok _,
        Hd : dict_get item "description" _ = Ok ?raw |- _ =>
          injection Hc as <-; exists raw, ""
      end.
      split_and!; [done | done | done | congruence].
  - intros item ev Hf. unfold CalendarEvents.format_event in Hf.
    cbv zeta in Hf. inv_bind Hf. subst ev.
    match goal with
    | He : dict_get item "event" _ = Ok ?e,
      Hd : dict_get ?e "description" _ = Ok ?raw,
      Hc : CalendarEvents.clean_html ?raw = Ok ?cleaned,
      Ht : dict_get ?e "description_text" _ = Ok ?text |- _ =>
        exists e, raw; split_and!; [done | done |];
        intros Et; unfold CalendarEvents.clean_html in Hc;
        rewrite Et in Hc; injection Hc as <-;
        destruct e; try done; simpl in Ht; injection Ht as <-
    end.
Qed.

End EventFetch.

(** ** Events: the document that is written *)




Lemma stored_today_insert (today_str k : string) (e : json)
    (acc : gmap string json) :
  (stored_today today_str (<[k := e]> acc)
   ≤ stored_today today_str acc + (if started today_str e then 1 else 0))%nat.
Proof.
  unfold stored_today. destruct (started today_str e) eqn:Es.
  - rewrite map_filter_insert_True by done. rewrite map_size_insert.
    destruct (_ !! k); simpl; lia.
  - rewrite map_filter_insert_False by (simpl; congruence).
    rewrite map_filter_delete, map_size_delete.
    destruct (_ !! k); simpl; lia.
Qed.

Lemma stored_today_bound (today_str : string) (events : list json)
    (acc m : gmap string json) :
  events_by_id events acc = Ok m →
  (stored_today today_str m
   ≤ stored_today today_str acc + length (starting_today today_str events))%nat.
Proof.
  unfold starting_today.
  revert acc. induction events as [|e rest IH]; intros acc Hm; simpl in Hm.
  - injection Hm as <-. simpl. lia.
  - apply bind_Ok in Hm as (id & Hid & Hm).
    destruct id as [| | | |k| |]; try done.
    specialize (IH _ Hm).
    pose proof (stored_today_insert today_str k e acc) as Hins.
    destruct (started today_str e) eqn:Es.
    + rewrite filter_cons_True by done. simpl. lia.
    + rewrite filter_cons_False by (rewrite Es; congruence). lia.
Qed.

Lemma events_by_id_nonempty (events : list json) (acc m : gmap string json) :
  events_by_id events acc = Ok m → acc ≠ ∅ ∨ events ≠ [] → m ≠ ∅.
Proof.
  revert acc. induction events as [|e rest IH]; intros acc Hm Hne; simpl in Hm.
  - injection Hm as <-. by destruct Hne.
  - apply bind_Ok in Hm as (id & Hid & Hm).
    destruct id as [| | | |k| |]; try done.
    apply (IH _ Hm). left. apply insert_non_empty.
Qed.

Lemma py_iter_truthy (v : json) (items : list json) :
  truthy v = true → py_iter v = Ok items → items ≠ [] ∧ ∃ n, py_len v = Ok n.
Proof.
  destruct v as [| | | |s|l|fields]; try done; simpl.
  - intros Ht [= <-]. split; [| by eexists]. by destruct s.
  - intros Ht [= <-]. split; [| by eexists]. by destruct l.
  - intros Ht [= <-]. split; [| by eexists]. by destruct fields.
Qed.

Section EventDocument.
Context {rt : PyRuntime}.








End EventDocument.

(** ** Events: the count of the day and the organization names *)

Lemma count_today_Ok (today_str : string) (events : list json) (n : nat) :
  count_today today_str events = Ok n →
  n = length (starting_today today_str events).
Proof.
  unfold starting_today.
  revert n. induction events as [|e rest IH]; intros n Hc; simpl in Hc.
  - by injection Hc as <-.
  - apply bind_Ok in Hc as (b & Hb & Hc).
    apply bind_Ok in Hc as (n' & Hn & Hc). injection Hc as <-.
    rewrite (IH _ Hn).
    assert (Hs : started today_str e = b) by (unfold started; by rewrite Hb).
    destruct b.
    + by rewrite filter_cons_True.
    + rewrite filter_cons_False; [done |]. by rewrite Hs.
Qed.

Lemma stored_today_empty (today_str : string) : stored_today today_str ∅ = 0%nat.
Proof. unfold stored_today. by rewrite map_filter_empty, map_size_empty. Qed.

Lemma write_events_bound (events : list json) (today_str timestamp : string)
    (d : option event_doc) :
  events ≠ [] →
  (catch_all
     (today_count ← lift (count_today today_str events);
      events_dict ← lift (events_by_id events ∅);
      io_modify (λ _, Some {| items := events_dict;
                             todayCount := today_count;
                             lastUpdated := timestamp |})) d).2 = d ∨
  ∃ doc,
    (catch_all
       (today_count ← lift (count_today today_str events);
        events_dict ← lift (events_by_id events ∅);
        io_modify (λ _, Some {| items := events_dict;
                               todayCount := today_count;
                               lastUpdated := timestamp |})) d).2 = Some doc ∧
    items doc ≠ ∅ ∧
    (stored_today today_str (items doc) ≤ todayCount doc ≤ length events)%nat.
Proof.
  intros Hne. rewrite catch_all_lift_bind.
  destruct (count_today today_str events) as [n|x] eqn:Hc; [| by left].
  rewrite catch_all_lift_bind.
  destruct (events_by_id events ∅) as [m|x] eqn:Hm; [| by left].
  right. eexists. split; [reflexivity |]. simpl.
  apply count_today_Ok in Hc as ->.
  split_and!.
  - apply (events_by_id_nonempty events ∅ m Hm). by right.
  - pose proof (stored_today_bound today_str events ∅ m Hm) as Hb.
    rewrite stored_today_empty in Hb. lia.
  - apply length_filter.
Qed.

Lemma assoc_app_other {A} (k k' : string) (v : A) (fields : list (string * A)) :
  k ≠ k' → assoc k (fields ++ [(k', v)]) = assoc k fields.
Proof.
  intros Hne. induction fields as [|[k0 v0] rest IH]; simpl.
  - by apply String.eqb_neq in Hne as ->.
  - by rewrite IH.
Qed.

Lemma same_but_organization_getitem (e1 e2 : json) (k : string) :
  same_but_organization e1 e2 → k ≠ "organization" →
  getitem e1 k = getitem e2 k ∧ ∀ dflt, dict_get e1 k dflt = dict_get e2 k dflt.
Proof.
  intros (fields & o1 & o2 & -> & ->) Hne. simpl.
  by rewrite !assoc_app_other.
Qed.

Lemma same_but_organization_sym (e1 e2 : json) :
  same_but_organization e1 e2 → same_but_organization e2 e1.
Proof. intros (fields & o1 & o2 & -> & ->). by exists fields, o2, o1. Qed.

Lemma starts_today_same (today_str : string) (e1 e2 : json) :
  same_but_organization e1 e2 →
  starts_today today_str e1 = starts_today today_str e2.
Proof.
  intros Hs. unfold starts_today.
  destruct (same_but_organization_getitem e1 e2 "start" Hs) as [-> ->]; done.
Qed.

Lemma count_today_same (today_str : string) (evs1 evs2 : list json) :
  Forall2 same_but_organization evs1 evs2 →
  count_today today_str evs1 = count_today today_str evs2.
Proof.
  induction 1 as [|e1 e2 r1 r2 He _ IH]; [done |].
  simpl. by rewrite (starts_today_same _ _ _ He), IH.
Qed.

Lemma events_by_id_same (evs1 evs2 : list json) (acc1 acc2 m1 : gmap string json) :
  Forall2 same_but_organization evs1 evs2 →
  (∀ k, option_Forall2 same_but_organization (acc1 !! k) (acc2 !! k)) →
  events_by_id evs1 acc1 = Ok m1 →
  ∃ m2, events_by_id evs2 acc2 = Ok m2 ∧
        ∀ k, option_Forall2 same_but_organization (m1 !! k) (m2 !! k).
Proof.
  intros Hall. revert acc1 acc2.
  induction Hall as [|e1 e2 r1 r2 He _ IH]; intros acc1 acc2 Hacc Hm; simpl in Hm.
  - injection Hm as <-. by exists acc2.
  - apply bind_Ok in Hm as (id & Hid & Hm).
    destruct id as [| | | |k0| |]; try done.
    simpl.
    destruct (same_but_organization_getitem e1 e2 "id" He) as [Hg _]; [done |].
    rewrite <- Hg, Hid. simpl.
    apply (IH (<[k0 := e1]> acc1)); [| done].
    intros k. destruct (decide (k0 = k)) as [->|Hne].
    + rewrite !lookup_insert_eq. by constructor.
    + rewrite !lookup_insert_ne by done. apply Hacc.
Qed.

Section EventCounts.
Context {rt : PyRuntime}.

(** Whenever an event job writes, the document is not empty and its count
    of the day is at least the number of stored events that start today
    and at most the number of upstream items: the count is taken over the
    formatted events before they are keyed by id, so two upstream items
    with one id count twice and are stored once. *)
Theorem today_count_bounds_stored_events (today_str timestamp : string)
    (d : option event_doc) :
  (∀ page1 page2,
     (CalendarEvents.get_calendar_events page1 page2 today_str timestamp d).2 = d ∨
     ∃ doc,
       (CalendarEvents.get_calendar_events page1 page2 today_str timestamp d).2
       = Some doc ∧
       items doc ≠ ∅ ∧
       (stored_today today_str (items doc) ≤ todayCount doc)%nat) ∧
  (∀ events_response orgs_response,
     (OrganizationEvents.get_organization_events events_response orgs_response
        today_str timestamp d).2 = d ∨
     ∃ doc,
       (OrganizationEvents.get_organization_events events_response orgs_response
          today_str timestamp d).2 = Some doc ∧
       items doc ≠ ∅ ∧
       (stored_today today_str (items doc) ≤ todayCount doc)%nat).
Proof.
  split.
  - intros page1 page2. unfold CalendarEvents.get_calendar_events.
    rewrite catch_all_lift_bind.
    destruct (CalendarEvents.fetch_localist_events page1 page2) as [raw|x];
      [| by left].
    rewrite catch_all_lift_bind.
    destruct (py_iter raw) as [raw_items|x]; [| by left].
    rewrite catch_all_lift_bind.
    destruct (map_result CalendarEvents.format_event raw_items)
      as [events|x]; [| by left].
    destruct events as [|e rest]; [by left |].
    destruct (write_events_bound (e :: rest) today_str timestamp d)
      as [Hd | (doc & Hdoc & Hne & Hle)]; [done | by left |].
    right. exists doc. split_and!; [done | done | lia].
  - intros events_response orgs_response.
    unfold OrganizationEvents.get_organization_events.
    rewrite catch_all_lift_bind.
    destruct (OrganizationEvents.fetch_engage_events events_response)
      as [raw|x]; [| by left].
    rewrite catch_all_lift_bind.
    destruct (py_len raw) as [n|x]; [| by left].
    destruct (truthy raw) eqn:Htruthy; cbn [negb]; [| by left].
    rewrite catch_all_lift_bind.
    destruct (py_iter raw) as [raw_items|x] eqn:Hiter; [| by left].
    rewrite catch_all_lift_bind.
    destruct (OrganizationEvents.collect_org_ids raw_items []) as [org_ids|x];
      [| by left].
    cbv zeta. rewrite catch_all_lift_bind.
    destruct (map_result _ raw_items) as [events|x] eqn:Hmap; [| by left].
    assert (Hne : events ≠ []).
    { destruct (py_iter_truthy raw raw_items Htruthy Hiter) as (Hni & _).
      destruct raw_items as [|i0 rest]; [done |]. simpl in Hmap.
      apply bind_Ok in Hmap as (y & _ & Hmap).
      apply bind_Ok in Hmap as (ys & _ & Hmap). by injection Hmap as <-. }
    destruct (write_events_bound events today_str timestamp d Hne)
      as [Hd | (doc & Hdoc & Hne' & Hle)]; [by left |].
    right. exists doc. split_and!; [done | done | lia].
Qed.

Lemma format_event_same (item : json) (om1 om2 : pydict) (e1 : json) :
  OrganizationEvents.format_event item om1 = Ok e1 →
  ∃ e2, OrganizationEvents.format_event item om2 = Ok e2 ∧
        same_but_organization e1 e2.
Proof.
  intros Hf. unfold OrganizationEvents.format_event in Hf |- *.
  cbv zeta in Hf |- *. inv_bind Hf. subst e1.
  repeat match goal with
         | H : ?r = Ok _ |- context [?r] => rewrite H; cbn [mbind result_bind]
         end.
  match goal with
  | H : (if truthy ?org_id then _ else _) = Ok _ |- _ =>
      destruct (truthy org_id); [destruct (hashable org_id); [| done] |];
      cbv [mret result_ret] in H |- *; injection H as <-;
      cbn [mbind result_bind]
  end;
  repeat match goal with
         | H : ?r = Ok _ |- context [?r] => rewrite H; cbn [mbind result_bind]
         end;
  (eexists; split; [reflexivity |]);
  unfold same_but_organization;
  match goal with
  | |- ∃ _ _ _, JObj ?l1 = _ ∧ _ => exists (removelast l1)
  end;
  eexists _, _; split; reflexivity.
Qed.

Lemma map_format_event_same (items : list json) (om1 om2 : pydict)
    (evs1 : list json) :
  map_result (λ item, OrganizationEvents.format_event item om1) items = Ok evs1 →
  ∃ evs2,
    map_result (λ item, OrganizationEvents.format_event item om2) items = Ok evs2 ∧
    Forall2 same_but_organization evs1 evs2.
Proof.
  revert evs1. induction items as [|item rest IH]; intros evs1 Hm; simpl in Hm.
  - injection Hm as <-. by exists [].
  - apply bind_Ok in Hm as (e1 & He & Hm).
    apply bind_Ok in Hm as (r1 & Hr & Hm). injection Hm as <-.
    destruct (format_event_same item om1 om2 e1 He) as (e2 & He2 & Hs).
    destruct (IH _ Hr) as (r2 & Hr2 & Hall).
    exists (e2 :: r2). simpl. rewrite He2. simpl. rewrite Hr2. simpl.
    split; [done | by constructor].
Qed.

End EventCounts.

Lemma events_by_id_Forall (P : json → Prop) (events : list json)
    (acc m : gmap string json) :
  Forall P events →
  events_by_id events acc = Ok m →
  (∀ k ev, acc !! k = Some ev → P ev) →
  ∀ k ev, m !! k = Some ev → P ev.
Proof.
  intros Hall. revert acc.
  induction Hall as [|e rest He _ IH]; intros acc Hm Hacc; simpl in Hm.
  - by injection Hm as <-.
  - apply bind_Ok in Hm as (id & Hid & Hm).
    destruct id as [| | | |k0| |]; try done.
    apply (IH _ Hm). intros k ev.
    destruct (decide (k0 = k)) as [->|Hne].
    + rewrite lookup_insert_eq. by intros [= <-].
    + rewrite lookup_insert_ne by done. apply Hacc.
Qed.

(** The pure steps of a job whose outcomes are known. *)
Ltac job_steps :=
  repeat first [ rewrite catch_all_lift_bind
               | progress cbn [negb]
               | progress cbv beta iota ].

Section OrganizationNames.
Context {rt : PyRuntime}.

(** An organization cycle up to the lookup of the names: it gives up, or
    goes on with the upstream items and the ids to look up. *)
Lemma get_organization_events_shape (events_response : result json)
    (today_str timestamp : string) (d : option event_doc) :
  (∀ orgs_response,
     OrganizationEvents.get_organization_events events_response orgs_response
       today_str timestamp d = (Ok (), d)) ∨
  ∃ raw_items org_ids,
    ∀ orgs_response,
      OrganizationEvents.get_organization_events events_response orgs_response
        today_str timestamp d
      = catch_all
          (events ← lift (map_result
                            (λ item, OrganizationEvents.format_event item
                                       (OrganizationEvents.fetch_organization_names
                                          org_ids orgs_response))
                            raw_items);
           today_count ← lift (count_today today_str events);
           events_dict ← lift (events_by_id events ∅);
           io_modify (λ _, Some {| items := events_dict;
                                  todayCount := today_count;
                                  lastUpdated := timestamp |})) d.
Proof.
  unfold OrganizationEvents.get_organization_events.
  destruct (OrganizationEvents.fetch_engage_events events_response)
    as [raw|x]; [| left; intros; by job_steps].
  destruct (py_len raw) as [n|x] eqn:Hlen;
    [| left; intros; job_steps; rewrite Hlen; by job_steps].
  destruct (truthy raw) eqn:Htruthy;
    [| left; intros; job_steps; rewrite Hlen; job_steps; by rewrite Htruthy].
  destruct (py_iter raw) as [raw_items|x] eqn:Hiter;
    [| left; intros; job_steps; rewrite Hlen; job_steps; rewrite Htruthy;
       job_steps; rewrite Hiter; by job_steps].
  destruct (OrganizationEvents.collect_org_ids raw_items []) as [org_ids|x] eqn:Hids;
    [| left; intros; job_steps; rewrite Hlen; job_steps; rewrite Htruthy;
       job_steps; rewrite Hiter; job_steps; rewrite Hids; by job_steps].
  right. exists raw_items, org_ids. intros orgs_response.
  job_steps. rewrite Hlen. job_steps. rewrite Htruthy. job_steps.
  rewrite Hiter. job_steps. rewrite Hids. by job_steps.
Qed.

(** The lookup of the organization names decides the organization field
    and nothing else: with any two answers to the lookup, a cycle writes
    in both cases or in neither, with the same count of the day, and the
    two documents hold the same ids with events that differ in the
    organization at most.  When the lookup fails the events are written
    all the same, every one without an organization. *)
Theorem organization_lookup_decides_names_only (events_response : result json)
    (today_str timestamp : string) (d : option event_doc) :
  (∀ orgs1 orgs2,
     ((OrganizationEvents.get_organization_events events_response orgs1
         today_str timestamp d).2 = d ∧
      (OrganizationEvents.get_organization_events events_response orgs2
         today_str timestamp d).2 = d) ∨
     ∃ doc1 doc2,
       (OrganizationEvents.get_organization_events events_response orgs1
          today_str timestamp d).2 = Some doc1 ∧
       (OrganizationEvents.get_organization_events events_response orgs2
          today_str timestamp d).2 = Some doc2 ∧
       todayCount doc1 = todayCount doc2 ∧
       ∀ k, option_Forall2 same_but_organization
              (items doc1 !! k) (items doc2 !! k)) ∧
  (∀ e,
     (OrganizationEvents.get_organization_events events_response (Raise e)
        today_str timestamp d).2 = d ∨
     ∃ doc,
       (OrganizationEvents.get_organization_events events_response (Raise e)
          today_str timestamp d).2 = Some doc ∧
       ∀ k ev, items doc !! k = Some ev → without_organization ev).
Proof.
  destruct (get_organization_events_shape events_response today_str timestamp d)
    as [Hquit | (raw_items & org_ids & Hrun)].
  { split; [intros orgs1 orgs2; left | intros e; left]; by rewrite !Hquit. }
  split.
  - intros orgs1 orgs2. rewrite !Hrun. rewrite !catch_all_lift_bind.
    set (om1 := OrganizationEvents.fetch_organization_names org_ids orgs1).
    set (om2 := OrganizationEvents.fetch_organization_names org_ids orgs2).
    destruct (map_result (λ item, OrganizationEvents.format_event item om1)
                raw_items) as [evs1|x1] eqn:H1.
    + destruct (map_format_event_same raw_items om1 om2 evs1 H1)
        as (evs2 & H2 & Hall).
      rewrite H2. rewrite !catch_all_lift_bind.
      rewrite (count_today_same today_str evs1 evs2 Hall).
      destruct (count_today today_str evs2) as [n|x]; [| by left].
      rewrite !catch_all_lift_bind.
      destruct (events_by_id evs1 ∅) as [m1|x1] eqn:Hm1.
      * destruct (events_by_id_same evs1 evs2 ∅ ∅ m1 Hall) as (m2 & Hm2 & Hlook);
          [intros k; rewrite lookup_empty; constructor | done |].
        rewrite Hm2. right. eexists _, _.
        split_and!; [reflexivity | reflexivity | done | done].
      * destruct (events_by_id evs2 ∅) as [m2|x2] eqn:Hm2; [| by left].
        assert (Hall' : Forall2 same_but_organization evs2 evs1).
        { apply Forall2_flip. eapply Forall2_impl; [exact Hall |].
          intros ? ?. apply same_but_organization_sym. }
        destruct (events_by_id_same evs2 evs1 ∅ ∅ m2 Hall') as (m1 & Hm1' & _);
          [intros k; rewrite lookup_empty; constructor | done |].
        congruence.
    + destruct (map_result (λ item, OrganizationEvents.format_event item om2)
                  raw_items) as [evs2|x2] eqn:H2; [| by left].
      destruct (map_format_event_same raw_items om2 om1 evs2 H2)
        as (evs1 & H1' & _).
      congruence.
  - intros e. rewrite Hrun. rewrite catch_all_lift_bind.
    destruct (map_result _ raw_items) as [evs|x] eqn:Hmap; [| by left].
    rewrite catch_all_lift_bind.
    destruct (count_today today_str evs) as [n|x]; [| by left].
    rewrite catch_all_lift_bind.
    destruct (events_by_id evs ∅) as [m|x] eqn:Hm; [| by left].
    right. eexists. split; [reflexivity |]. simpl.
    apply (events_by_id_Forall without_organization evs ∅ m); [| done | done].
    eapply map_result_Forall; [| exact Hmap].
    intros item ev Hf.
    assert (Hnone : OrganizationEvents.fetch_organization_names org_ids (Raise e)
                    = []) by by destruct org_ids.
    rewrite Hnone in Hf.
    unfold OrganizationEvents.format_event in Hf. cbv zeta in Hf.
    inv_bind Hf. subst ev.
    match goal with
    | H : (if truthy ?org_id then _ else _) = Ok _ |- _ =>
        destruct (truthy org_id); [destruct (hashable org_id); [| done] |];
        cbv [mret result_ret] in H; injection H as <-
    end; reflexivity.
Qed.

End OrganizationNames.

(** ** Events: the statements on the samples *)

Lemma fetch_localist_events_single_page_witness :
  dict_get (default (JObj []) (assoc "page" EventSamples.only_page))
    "total" (JInt 1) = Ok (JInt 1) ∧
  as_number (JInt 1) = Some (inject_Z 1) ∧
  (inject_Z 1 < 2)%Q ∧
  CalendarEvents.fetch_localist_events (Ok (JObj EventSamples.only_page))
    (Raise RequestException)
  = Ok (default (JArr []) (assoc "events" EventSamples.only_page)).
Proof.
  assert (Hlt : (inject_Z 1 < 2)%Q) by reflexivity.
  split; [reflexivity |]. split; [reflexivity |]. split; [exact Hlt |].
  exact (fetch_localist_events_single_page EventSamples.only_page (JInt 1)
           (inject_Z 1) (Raise RequestException) eq_refl eq_refl Hlt).
Defined.

Lemma fetch_localist_events_two_pages_witness :
  assoc "events" EventSamples.first_page = Some (JArr [Samples.calendar_item]) ∧
  dict_get (default (JObj []) (assoc "page" EventSamples.first_page))
    "total" (JInt 1) = Ok (JInt 2) ∧
  as_number (JInt 2) = Some (inject_Z 2) ∧
  (2 <= inject_Z 2)%Q ∧
  (∀ fields2 events2,
     assoc "events" fields2 = Some (JArr events2) →
     CalendarEvents.fetch_localist_events (Ok (JObj EventSamples.first_page))
       (Ok (JObj fields2))
     = Ok (JArr ([Samples.calendar_item] ++ events2))) ∧
  (∀ e,
     CalendarEvents.fetch_localist_events (Ok (JObj EventSamples.first_page))
       (Raise e)
     = Raise e).
Proof.
  assert (Hle : (2 <= inject_Z 2)%Q) by (intros Hc; discriminate Hc).
  split; [reflexivity |]. split; [reflexivity |]. split; [reflexivity |].
  split; [exact Hle |].
  exact (fetch_localist_events_two_pages EventSamples.first_page
           [Samples.calendar_item] (JInt 2) (inject_Z 2)
           eq_refl eq_refl eq_refl Hle).
Defined.


Lemma format_event_description_witness :
  OrganizationEvents.format_event (H := TestRuntime.runtime) Samples.engage_item []
  = Ok EventSamples.engage_event ∧
  CalendarEvents.format_event (H := TestRuntime.runtime)
    EventSamples.plain_description_item
  = Ok EventSamples.plain_description_event ∧
  (∃ raw text,
     dict_get Samples.engage_item "description" (JStr "") = Ok raw ∧
     getitem EventSamples.engage_event "description" = Ok (JStr text) ∧
     (truthy raw = false → text = "") ∧
     (truthy raw = true → soup_text (PyRuntime := TestRuntime.runtime) raw = Ok text)) ∧
  (∃ e raw,
     dict_get EventSamples.plain_description_item "event" (JObj []) = Ok e ∧
     dict_get e "description" (JStr "") = Ok raw ∧
     (truthy raw = false →
      Ok (default (JStr "") (match e with
                             | JObj fields => assoc "description_text" fields
                             | _ => None
                             end))
      = getitem EventSamples.plain_description_event "description")).
Proof.
  assert (H1 : OrganizationEvents.format_event (H := TestRuntime.runtime)
                 Samples.engage_item [] = Ok EventSamples.engage_event)
    by reflexivity.
  assert (H2 : CalendarEvents.format_event (H := TestRuntime.runtime)
                 EventSamples.plain_description_item
               = Ok EventSamples.plain_description_event) by reflexivity.
  split; [exact H1 |]. split; [exact H2 |].
  split.
  - exact (proj1 (format_event_description (rt := TestRuntime.runtime))
             Samples.engage_item [] EventSamples.engage_event H1).
  - exact (proj2 (format_event_description (rt := TestRuntime.runtime))
             EventSamples.plain_description_item
             EventSamples.plain_description_event H2).
Defined.


(** The sample page with one event twice: two events counted for the day,
    one stored. *)
Example today_count_counts_repeated_ids :
  match (CalendarEvents.get_calendar_events (H := TestRuntime.runtime)
           (Ok (JObj EventSamples.repeated_page)) (Raise RequestException)
           "2024-05-01" "2024-05-01 09:00:00 AM" None).2 with
  | Some doc =>
      todayCount doc = 2%nat ∧ stored_today "2024-05-01" (items doc) = 1%nat
  | None => False
  end.
Proof. vm_compute. split; reflexivity. Qed.


(** ** Weather: the camera image *)

Section WeatherImage.
Context {rt : PyRuntime}.

(** The first camera named Cloud Camera decides the image, whatever
    follows it: its [image], or null when it has none, and the cameras
    after it are not consulted. *)
Theorem find_camera_first_match (before after : list json)
    (fields : list (string * json)) :
  Forall other_camera before →
  assoc "name" fields = Some (JStr "Cloud Camera") →
  Weather.find_camera (before ++ JObj fields :: after)
  = Ok (default JNull (assoc "image" fields)).
Proof.
  intros Hbefore Hname.
  induction Hbefore as [|c rest (name & Hc & Hneq) _ IH]; simpl.
  - by rewrite Hname.
  - rewrite Hc. simpl. by rewrite Hneq.
Qed.

(** A cycle replaces the whole weather record, the image included: the
    record it writes has an [imageUrl] exactly when the station has a
    camera image now, and then it is that image; an image stored before
    does not survive. *)
Theorem weather_image_follows_camera (fetched : result json)
    (sun : result (Z * Z)) (timestamp_str : string) (d : Weather.db) :
  (Weather.get_weather fetched sun timestamp_str d).2 = d ∨
  ∃ data station url record,
    fetched = Ok data ∧
    Weather.select_station data = Some station ∧
    Weather.extract_camera_url station = Ok url ∧
    (Weather.get_weather fetched sun timestamp_str d).2 = Some (JObj record) ∧
    assoc "imageUrl" record = (if truthy url then Some url else None).
Proof.
  unfold Weather.get_weather.
  destruct fetched as [data|x]; [| by left].
  rewrite catch_all_lift_bind.
  destruct (Weather.select_station data) as [station|] eqn:Hsel; [| by left].
  rewrite catch_all_lift_bind.
  destruct (Weather.build_weather station sun timestamp_str) as [[record|]|x] eqn:Hb;
    [| by left | by left].
  right. exists data, station.
  unfold Weather.build_weather in Hb.
  apply bind_Ok in Hb as (readings & _ & Hb).
  apply bind_Ok in Hb as (url & Hurl & Hb).
  destruct (truthy (Weather.reading readings "Thermometer" JNull)); [| done].
  cbn [negb] in Hb.
  apply bind_Ok in Hb as (t & _ & Hb).
  apply bind_Ok in Hb as (feels_like & _ & Hb).
  destruct (Weather.sunrise_sunset sun) as [sunrise sunset].
  inv_bind Hb. subst record.
  eexists url, _. split_and!; [done | done | done | reflexivity |].
  by destruct (truthy url).
Qed.

End WeatherImage.

Lemma find_camera_first_match_witness :
  Forall other_camera [CameraSamples.sky] ∧
  assoc "name" CameraSamples.cloud_fields = Some (JStr "Cloud Camera") ∧
  Weather.find_camera
    ([CameraSamples.sky] ++ JObj CameraSamples.cloud_fields
       :: [CameraSamples.cloud_with_image])
  = Ok (default JNull (assoc "image" CameraSamples.cloud_fields)).
Proof.
  assert (Hb : Forall other_camera [CameraSamples.sky]).
  { repeat constructor. by exists (JStr "Sky Camera"). }
  split; [exact Hb |]. split; [reflexivity |].
  exact (find_camera_first_match [CameraSamples.sky]
           [CameraSamples.cloud_with_image] CameraSamples.cloud_fields
           Hb eq_refl).
Defined.
